(** * useFinanceiro: the financial ledger hook of GestorTechPlay

    A shallow embedding of [useFinanceiro] (the hook that reconciles
    customers, plans, products and hand-entered transactions into one
    ledger) and of the part of the JavaScript runtime it calls.

    - [JS]: strings as sequences of code units, [String.prototype.replace],
      [split], [Array.prototype.join], [parseFloat], [isNaN], and
      [Array.prototype.sort] with a comparison function.
    - [Financeiro]: the records of the hook, the aggregation of
      [carregarDadosFinanceiros], and the three write operations over an
      abstract store.
    - [Navegador]: the dates of a browser, for the two functions the
      language leaves to the implementation.
    - [WhatsAppSession]: the badge of the session card.
    - [Exemplos]: stores and rows to run the hook on.
    - [Propriedades], [Cobertura]: what the hook does.

    Numbers are IEEE 754 binary64 values (primitive floats); a time value is
    an integral number of milliseconds or NaN. *)

From Stdlib Require Import ZArith List String Ascii Bool Lia.
From Stdlib Require Import Permutation Sorted.
From Stdlib Require Import Floats.PrimFloat Floats.SpecFloat Floats.FloatOps.
Import ListNotations.

Set Warnings "-inexact-float".

Open Scope string_scope.
Open Scope Z_scope.

(* ================================================================== *)
(** * The JavaScript runtime used by the hook *)
(* ================================================================== *)

Module JS.

(** ** Strings

    A string is a sequence of code units. Only code units below 256 are
    represented, so the white space of the class [\s] is TAB, LF, VT, FF, CR,
    SPACE and NO-BREAK SPACE. The labels and messages of the hook that have
    accents are constants standing for themselves. *)

Definition codigo (c : ascii) : Z := Z.of_nat (nat_of_ascii c).

Definition espaco (c : ascii) : bool :=
  let n := codigo c in
  ((9 <=? n) && (n <=? 13)) || (n =? 32) || (n =? 160).

Definition digito (c : ascii) : bool :=
  let n := codigo c in (48 <=? n) && (n <=? 57).

Definition valorDigito (c : ascii) : Z := codigo c - 48.

(** [s.replace(/[...]/g, '')]: every code unit of the class is removed. *)
Fixpoint removeTodos (classe : ascii -> bool) (s : string) : string :=
  match s with
  | EmptyString => EmptyString
  | String c r => if classe c then removeTodos classe r
                  else String c (removeTodos classe r)
  end.

(** [s.replace(a, b)] with a one-unit string pattern: only the first
    occurrence is replaced. *)
Fixpoint replacePrimeiro (a b : ascii) (s : string) : string :=
  match s with
  | EmptyString => EmptyString
  | String c r => if Ascii.eqb c a then String b r
                  else String c (replacePrimeiro a b r)
  end.

(** [s.split(sep)] with a one-unit separator. The result is never empty:
    the empty string splits into one empty piece. *)
Fixpoint split (sep : ascii) (s : string) : list string :=
  match s with
  | EmptyString => [EmptyString]
  | String c r =>
      if Ascii.eqb c sep then EmptyString :: split sep r
      else match split sep r with
           | p :: ps => String c p :: ps
           | [] => [String c EmptyString]
           end
  end.

(** [s.includes(c)] for a one-unit string. *)
Fixpoint includes (c : ascii) (s : string) : bool :=
  match s with
  | EmptyString => false
  | String x r => Ascii.eqb x c || includes c r
  end.

(** [a.join(sep)]. *)
Fixpoint join (sep : string) (l : list string) : string :=
  match l with
  | [] => EmptyString
  | [x] => x
  | x :: r => x ++ sep ++ join sep r
  end.

(** [a[0]] and [a.slice(1)] on the result of [split]. *)
Definition primeiro (l : list string) : string := hd EmptyString l.
Definition slice1 (l : list string) : list string := tl l.

(** [x || d] on strings: the empty string is falsy. *)
Definition ouTexto (x d : string) : string :=
  match x with EmptyString => d | _ => x end.

(** ** Numbers *)

Definition number := float.

Definition NaN : number := PrimFloat.nan.
Definition isNaN (x : number) : bool := PrimFloat.is_nan x.

(** The Number value of [(-1)^neg * m * 10^e], rounded to nearest, ties to
    even. *)
Definition deDecimal (neg : bool) (m : Z) (e : Z) : number :=
  if m <=? 0 then (if neg then PrimFloat.neg_zero else PrimFloat.zero)
  else if 0 <=? e
  then SF2Prim (binary_normalize prec emax
                  (if neg then - (m * 10 ^ e) else m * 10 ^ e) 0 false)
  else SF2Prim (SFdiv prec emax
                  (S754_finite neg (Z.to_pos m) 0)
                  (S754_finite false (Z.to_pos (10 ^ (- e))) 0)).

(** The longest run of decimal digits at the head of [s]: its value, its
    length and what follows. *)
Fixpoint digitos (s : string) (acc : Z) (n : Z) : Z * Z * string :=
  match s with
  | String c r => if digito c then digitos r (acc * 10 + valorDigito c) (n + 1)
                  else (acc, n, s)
  | EmptyString => (acc, n, s)
  end.

Fixpoint trimStart (s : string) : string :=
  match s with
  | String c r => if espaco c then trimStart r else s
  | EmptyString => s
  end.

Definition sinal (s : string) : bool * string :=
  match s with
  | String "-" r => (true, r)
  | String "+" r => (false, r)
  | _ => (false, s)
  end.

(** The exponent part [e], [e+] or [e-] followed by digits; absent or
    incomplete, it is not part of the literal. *)
Definition expoente (s : string) : Z :=
  match s with
  | String c r =>
      if Ascii.eqb c "e" || Ascii.eqb c "E" then
        let '(neg, r') := sinal r in
        let '(v, n, _) := digitos r' 0 0 in
        if n =? 0 then 0 else if neg then - v else v
      else 0
  | EmptyString => 0
  end.

Definition infinito (neg : bool) : number :=
  if neg then PrimFloat.neg_infinity else PrimFloat.infinity.

(** [parseFloat(s)]: leading white space is skipped, the longest prefix that
    is a [StrDecimalLiteral] is read, and NaN is returned when there is
    none. *)
Definition parseFloat (s : string) : number :=
  let '(neg, r) := sinal (trimStart s) in
  if prefix "Infinity" r then infinito neg
  else
    let '(vi, ni, r1) := digitos r 0 0 in
    match r1 with
    | String "." r2 =>
        let '(vf, nf, r3) := digitos r2 vi 0 in
        if (ni =? 0) && (nf =? 0) then NaN
        else deDecimal neg vf (expoente r3 - nf)
    | _ =>
        if ni =? 0 then NaN else deDecimal neg vi (expoente r1)
    end.

(** ** [Array.prototype.sort] with a comparison function

    The comparison function returns a Number, here an integer or [None] for
    NaN; [SortCompare] reads NaN as [+0]. The sort is stable: an element moves
    behind another only when the comparison is positive. ECMAScript fixes the
    resulting order when the comparison is consistent for the elements (it
    orders them as a total preorder), and then the stable insertion below
    gives that order. For an inconsistent comparison the standard leaves the
    order to the engine, and only says that it is a rearrangement of the
    elements: of the order of [sort] in that case nothing is concluded in
    what follows. *)
Section Sort.
Context {T : Type}.
Variable comparefn : T -> T -> option Z.

Definition sortCompare (x y : T) : Z :=
  match comparefn x y with
  | Some v => v
  | None => 0
  end.

Fixpoint insere (x : T) (l : list T) : list T :=
  match l with
  | [] => [x]
  | y :: r => if 0 <? sortCompare x y then y :: insere x r
              else x :: y :: r
  end.

Definition sort (l : list T) : list T := fold_right insere [] l.
End Sort.

End JS.


(* ================================================================== *)
(** * The hook *)
(* ================================================================== *)

Module Financeiro.
Import JS.

(** ** Records *)

(** Modelled from the spec: the types [Cliente], [Plano] and [Produto] of
    [@/types/database] are not among the sources; these are the fields the
    hook reads. A field that is absent or null is [None]: the hook tells
    the two apart nowhere but in the template literal of an id, and a row of
    the store comes with its id. *)
Record Cliente := {
  cliente_id : option string;
  cliente_nome : string;
  cliente_created_at : option string;
  cliente_plano : option string;
  cliente_produto : option string
}.

Record Plano := {
  plano_id : option string;
  plano_nome : string;
  plano_valor : string
}.

Record Produto := {
  produto_id : option string;
  produto_nome : string;
  produto_valor : string
}.

(** A field of a row typed [any]: null, a number or a string. *)
Inductive Bruto :=
| Nulo
| Numero (x : number)
| Texto (s : string).

(** A row of the relation [transacoes] as the store returns it, typed [any]
    in the hook: the amount, the direction and the description are taken as
    they come. Every column is present in a row; of the creation time [None]
    is [null]. *)
Record Linha := {
  linha_id : string;
  linha_valor : Bruto;
  linha_tipo : Bruto;
  linha_descricao : Bruto;
  linha_created_at : option string
}.

Record TransacaoFinanceira := {
  id : string;
  cliente : string;
  tipo : Bruto;
  valor : number;
  data : string;
  detalheTitulo : string;
  detalheValor : string;
  isCustom : bool;
  descricao : option string
}.

(** ['entrada' | 'saida']. *)
Inductive Tipo := entrada | saida.

Record NovaTransacao := {
  nova_valor : number;
  nova_tipo : Tipo;
  nova_descricao : string
}.

(** The state of the hook, [dados]. *)
Record Dados := {
  entradas : number;
  saidas : number;
  lucros : number;
  transacoes : list TransacaoFinanceira;
  loading : bool;
  error : option string
}.

Definition dadosIniciais : Dados :=
  {| entradas := 0%float; saidas := 0%float; lucros := 0%float;
     transacoes := [];
     loading := true; error := None |}.

(** ** What the runtime leaves to the implementation

    [new Date(s).getTime()] for a string [s] and
    [d.toLocaleString('pt-BR')] for a time value [d] ([None] is the invalid
    date); [relogio k] is the time value of the [k]-th [new Date()] since the
    hook was mounted. *)
Record Runtime := {
  Date_parse : string -> option Z;
  toLocaleString : option Z -> string;
  relogio : nat -> Z
}.

(** ** [new Map(...)], [has] and [get] *)

Definition Map (V : Type) : Type := list (option string * V).

Definition mesmaChave (a b : option string) : bool :=
  match a, b with
  | Some x, Some y => String.eqb x y
  | None, None => true
  | _, _ => false
  end.

(** The entry set last for a key is the one the map holds. *)
Definition Map_get {V : Type} (m : Map V) (k : option string) : option V :=
  fold_left (fun r kv => if mesmaChave (fst kv) k then Some (snd kv) else r)
            m None.

(** [x && ...] on an optional string: absent and empty are falsy. *)
Definition verdadeiro (x : option string) : bool :=
  match x with
  | Some (String _ _) => true
  | _ => false
  end.

(** [`${x}`] in a template literal, where [None] is the absent field. *)
Definition emTexto (x : option string) : string :=
  match x with Some s => s | None => "undefined" end.

(** [parseFloat(x)] on a field typed [any]: the argument is first turned
    into a string. [null] gives ["null"]; a number gives the shortest
    decimal that reads back as the same number, and [-0] gives ["0"]. *)
Definition parseFloatBruto (x : Bruto) : number :=
  match x with
  | Nulo => parseFloat "null"
  | Numero n => if PrimFloat.Leibniz.eqb n PrimFloat.neg_zero then PrimFloat.zero else n
  | Texto s => parseFloat s
  end.

(** [x === 'entrada']. *)
Definition ehEntrada (x : Bruto) : bool :=
  match x with
  | Texto s => String.eqb s "entrada"
  | _ => false
  end.

(** ** What is thrown *)

(** The error object of a response ([PostgrestError], [FunctionsError]). *)
Record ErroLoja := {
  code : string;
  message : string
}.

(** What a [throw] carries. *)
Inductive Lancado :=
| NovoErro (mensagem : string)
| DaLoja (e : ErroLoja)
| TypeError (mensagem : string)
| Rejeicao (motivo : string).

(** How a piece of the hook ends: it returns, or it throws. *)
Inductive Resultado (A : Type) :=
| Retorna (a : A)
| Lanca (x : Lancado).
Arguments Retorna {A} a.
Arguments Lanca {A} x.

(** [l.forEach(x => ...)] over the variables [b] the body assigns to, for a
    body that may throw: the first throw ends the loop. *)
Fixpoint paraCada {A B : Type} (f : B -> A -> Resultado B) (l : list A)
  (b : B) : Resultado B :=
  match l with
  | [] => Retorna b
  | x :: r =>
      match f b x with
      | Retorna b' => paraCada f r b'
      | Lanca e => Lanca e
      end
  end.

(** A customer without the reference to a plan, or to a product. *)
Definition semPlano (c : Cliente) : Cliente :=
  {| cliente_id := cliente_id c; cliente_nome := cliente_nome c;
     cliente_created_at := cliente_created_at c;
     cliente_plano := None; cliente_produto := cliente_produto c |}.

Definition semProduto (c : Cliente) : Cliente :=
  {| cliente_id := cliente_id c; cliente_nome := cliente_nome c;
     cliente_created_at := cliente_created_at c;
     cliente_plano := cliente_plano c; cliente_produto := None |}.

Section Carga.
Variable rt : Runtime.

(** ** The aggregation of [carregarDadosFinanceiros] *)

(** [totalEntradas], [totalSaidas] and [transacoes] of the source, and the
    number of clock readings taken so far. *)
Record Acumulado := {
  totalEntradas : number;
  totalSaidas : number;
  acumuladas : list TransacaoFinanceira;
  leituras : nat
}.

Definition acumuladoInicial (n : nat) : Acumulado :=
  {| totalEntradas := 0%float; totalSaidas := 0%float; acumuladas := [];
     leituras := n |}.

(** [/[R$\s]/]. *)
Definition classeRS (c : ascii) : bool :=
  Ascii.eqb c "R" || Ascii.eqb c "$" || espaco c.

(** [valor.replace(/[R$\s]/g, '').replace(',', '.')] then [parseFloat]. *)
Definition valorDoPreco (preco : string) : number :=
  parseFloat (replacePrimeiro "," "." (removeTodos classeRS preco)).

(** [new Date(cliente.created_at || new Date()).toLocaleString('pt-BR')],
    from the reading count [n]: the display string and the new count. *)
Definition dataDoCliente (c : Cliente) (n : nat) : string * nat :=
  if verdadeiro (cliente_created_at c)
  then (toLocaleString rt (Date_parse rt (emTexto (cliente_created_at c))), n)
  else (toLocaleString rt (Some (relogio rt n)), S n).

(** Lines 106-126: the plan of a customer as an inflow. *)
Definition lancaPlano (planosMap : Map Plano) (c : Cliente) (a : Acumulado)
  : Acumulado :=
  if verdadeiro (cliente_plano c) then
    match Map_get planosMap (cliente_plano c) with
    | Some plano =>
        let valorPlano := valorDoPreco (plano_valor plano) in
        if isNaN valorPlano then a
        else
          let '(d, n) := dataDoCliente c (leituras a) in
          {| totalEntradas := PrimFloat.add (totalEntradas a) valorPlano;
             totalSaidas := totalSaidas a;
             acumuladas := acumuladas a ++
               [{| id := "entrada-" ++ emTexto (cliente_id c);
                   cliente := cliente_nome c;
                   tipo := Texto "entrada";
                   valor := valorPlano;
                   data := d;
                   detalheTitulo := "Plano";
                   detalheValor := plano_nome plano;
                   isCustom := false;
                   descricao := None |}];
             leituras := n |}
    | None => a
    end
  else a.

(** Lines 128-149: the product of a customer as an outflow. *)
Definition lancaProduto (produtosMap : Map Produto) (c : Cliente)
  (a : Acumulado) : Acumulado :=
  if verdadeiro (cliente_produto c) then
    match Map_get produtosMap (cliente_produto c) with
    | Some produto =>
        let valorProduto := valorDoPreco (produto_valor produto) in
        if isNaN valorProduto then a
        else
          let '(d, n) := dataDoCliente c (leituras a) in
          {| totalEntradas := totalEntradas a;
             totalSaidas := PrimFloat.add (totalSaidas a) valorProduto;
             acumuladas := acumuladas a ++
               [{| id := "saida-" ++ emTexto (cliente_id c);
                   cliente := cliente_nome c;
                   tipo := Texto "saida";
                   valor := valorProduto;
                   data := d;
                   detalheTitulo := "Produto";
                   detalheValor := produto_nome produto;
                   isCustom := false;
                   descricao := None |}];
             leituras := n |}
    | None => a
    end
  else a.

(** The body of [clientes.forEach]. *)
Definition lancaCliente (planosMap : Map Plano) (produtosMap : Map Produto)
  (a : Acumulado) (c : Cliente) : Acumulado :=
  lancaProduto produtosMap c (lancaPlano planosMap c a).

(** [new Date(transacao.created_at).toLocaleString('pt-BR')]: [null] is
    read as the number 0. *)
Definition dataDaLinha (t : Linha) : string :=
  match linha_created_at t with
  | Some s => toLocaleString rt (Date_parse rt s)
  | None => toLocaleString rt (Some 0)
  end.

(** Lines 163-177 for a description that is the string [d]: the entry of a
    custom transaction. *)
Definition entradaDoTexto (t : Linha) (v : number) (d : string)
  : TransacaoFinanceira :=
  let linhas := split "010" d in
  {| id := linha_id t;
     cliente := ouTexto (primeiro linhas) "Transação customizada";
     tipo := linha_tipo t;
     valor := v;
     data := dataDaLinha t;
     detalheTitulo := "Customizada";
     detalheValor := ouTexto (join " " (slice1 linhas)) "Sem detalhes";
     isCustom := true;
     descricao := Some d |}.

(** The entry built for a custom transaction (lines 162-177).
    [transacao.descricao.split] is called on the description as it came: a
    string is split at the line feeds; [null] has no property to read and a
    number has no method [split], and the call throws a TypeError. *)
Definition entradaCustomizada (t : Linha) (v : number)
  : Resultado TransacaoFinanceira :=
  match linha_descricao t with
  | Texto d => Retorna (entradaDoTexto t v d)
  | Nulo =>
      Lanca (TypeError "Cannot read properties of null (reading 'split')")
  | Numero _ =>
      Lanca (TypeError "transacao.descricao.split is not a function")
  end.

(** The body of [transacoesCustomizadas.forEach] (lines 154-178). The
    total is added to before the description is split; when the split
    throws, the totals and the list, local to the load, are lost with it. *)
Definition lancaCustomizada (a : Acumulado) (t : Linha)
  : Resultado Acumulado :=
  let v := parseFloatBruto (linha_valor t) in
  if isNaN v then Retorna a
  else
    match entradaCustomizada t v with
    | Retorna e =>
        Retorna
          {| totalEntradas := if ehEntrada (linha_tipo t)
                              then PrimFloat.add (totalEntradas a) v
                              else totalEntradas a;
             totalSaidas := if ehEntrada (linha_tipo t)
                            then totalSaidas a
                            else PrimFloat.add (totalSaidas a) v;
             acumuladas := acumuladas a ++ [e];
             leituras := leituras a |}
    | Lanca x => Lanca x
    end.

Definition planosMapDe (planos : list Plano) : Map Plano :=
  map (fun p => (plano_id p, p)) planos.

Definition produtosMapDe (produtos : list Produto) : Map Produto :=
  map (fun p => (produto_id p, p)) produtos.

(** The state after [clientes.forEach]: the derived entries. *)
Definition derivadas (n : nat) (clientes : list Cliente)
  (planos : list Plano) (produtos : list Produto) : Acumulado :=
  fold_left (lancaCliente (planosMapDe planos) (produtosMapDe produtos))
            clientes (acumuladoInicial n).

(** Both loops: the state after them, or what the second one throws. *)
Definition agregar (n : nat) (clientes : list Cliente)
  (planos : list Plano) (produtos : list Produto)
  (customizadas : list Linha) : Resultado Acumulado :=
  paraCada lancaCustomizada customizadas
           (derivadas n clientes planos produtos).

(** [(a, b) => new Date(b.data).getTime() - new Date(a.data).getTime()].
    The difference of two time values is NaN when one of them is; otherwise
    the sort reads its sign alone, which the integer difference has too. *)
Definition porDataDecrescente (a b : TransacaoFinanceira) : option Z :=
  match Date_parse rt (data b), Date_parse rt (data a) with
  | Some tb, Some ta => Some (tb - ta)
  | _, _ => None
  end.

(** The argument of the final [setDados] (lines 181-190). *)
Definition dadosDe (a : Acumulado) : Dados :=
  {| entradas := totalEntradas a;
     saidas := totalSaidas a;
     lucros := PrimFloat.sub (totalEntradas a) (totalSaidas a);
     transacoes := sort porDataDecrescente (acumuladas a);
     loading := false;
     error := None |}.

(** The second loop goes past a row when its amount is no number or its
    description is a string; it throws at the first row it cannot pass. *)
Definition passa (t : Linha) : bool :=
  isNaN (parseFloatBruto (linha_valor t))
  || match linha_descricao t with Texto _ => true | _ => false end.

(** The entries the second loop pushes for the rows [ts], when it passes
    them all. *)
Definition entradasCustomizadas (ts : list Linha)
  : list TransacaoFinanceira :=
  flat_map (fun t =>
              let v := parseFloatBruto (linha_valor t) in
              if isNaN v then []
              else match entradaCustomizada t v with
                   | Retorna e => [e]
                   | Lanca _ => []
                   end)
           ts.

(** The amount of an entry is a number. *)
Definition comNumero (e : TransacaoFinanceira) : Prop :=
  isNaN (valor e) = false.

(** The time value the comparison function reads from an entry, and
    whether it reads one. *)
Definition legivel (e : TransacaoFinanceira) : bool :=
  match Date_parse rt (data e) with Some _ => true | None => false end.

Definition tempoDe (e : TransacaoFinanceira) : Z :=
  match Date_parse rt (data e) with Some t => t | None => 0 end.

Definition maisRecenteAntes (a b : TransacaoFinanceira) : Prop :=
  tempoDe b <= tempoDe a.

End Carga.

(** ** The store and the effects of the hook *)

(** What an awaited call of the client gives: the promise is rejected, or
    it resolves to [{ data, error }]. *)
Inductive Resposta (A : Type) :=
| Rejeitada (motivo : Lancado)
| Resolvida (data : option A) (error : option ErroLoja).
Arguments Rejeitada {A} motivo.
Arguments Resolvida {A} data error.

(** The object given to [insert]. *)
Record LinhaNova := {
  ins_valor : number;
  ins_tipo : Tipo;
  ins_descricao : string;
  ins_user_id : option string
}.

(** The client of the store, over a state [S] of the outside world. *)
Class Loja (S : Type) := {
  select_clientes : S -> Resposta (list Cliente) * S;
  select_planos : S -> Resposta (list Plano) * S;
  select_produtos : S -> Resposta (list Produto) * S;
  select_transacoes : S -> Resposta (list Linha) * S;
  insert_transacao : LinhaNova -> S -> Resposta unit * S;
  update_transacao : string -> NovaTransacao -> S -> Resposta unit * S;
  delete_transacao : string -> S -> Resposta unit * S;
  invoke_create_transacoes : S -> Resposta unit * S
}.

(** The calls made to the store, as they are logged. *)
Inductive Chamada :=
| ChSelect (tabela : string)
| ChInsert (l : LinhaNova)
| ChUpdate (onde : string) (n : NovaTransacao)
| ChDelete (onde : string)
| ChInvoke (funcao : string).

Section Operacoes.
Variable rt : Runtime.
Context {S : Type} {loja_ops : Loja S}.

(** [userId] of [useCurrentUser]. *)
Variable userId : option string.

(** The outside world, the state of the hook, the calls made so far and
    the clock readings taken so far. *)
Record Mundo := {
  loja : S;
  dados : Dados;
  chamadas : list Chamada;
  lidas : nat
}.

Definition M (A : Type) : Type := Mundo -> Resultado A * Mundo.

Definition retorna {A} (a : A) : M A := fun w => (Retorna a, w).
Definition lanca {A} (x : Lancado) : M A := fun w => (Lanca x, w).

Definition liga {A B} (m : M A) (k : A -> M B) : M B :=
  fun w => match m w with
           | (Retorna a, w') => k a w'
           | (Lanca x, w') => (Lanca x, w')
           end.

(** A piece of the hook that touches nothing of the world. *)
Definition resultado {A} (r : Resultado A) : M A := fun w => (r, w).

(** [try { m } catch (x) { h x }]. *)
Definition tentar {A} (m : M A) (h : Lancado -> M A) : M A :=
  fun w => match m w with
           | (Retorna a, w') => (Retorna a, w')
           | (Lanca x, w') => h x w'
           end.

Notation "x <- m ;; k" := (liga m (fun x => k))
  (at level 61, m at next level, right associativity).
Notation "m ;;; k" := (liga m (fun _ => k))
  (at level 61, right associativity).

(** The world once the call [c] has been logged and has left the store
    in the state [s]. *)
Definition aposChamada (w : Mundo) (c : Chamada) (s : S) : Mundo :=
  {| loja := s; dados := dados w;
     chamadas := chamadas w ++ [c]; lidas := lidas w |}.

(** A call of the client: logged, and answered by the store. *)
Definition chamar {A} (c : Chamada) (f : S -> Resposta A * S)
  : M (Resposta A) :=
  fun w => let '(r, s) := f (loja w) in (Retorna r, aposChamada w c s).

(** [await]: a rejection is thrown. *)
Definition aguarda {A} (r : Resposta A)
  : M (option A * option ErroLoja) :=
  match r with
  | Rejeitada x => lanca x
  | Resolvida d e => retorna (d, e)
  end.

(** [setDados(f)]. *)
Definition setDados (f : Dados -> Dados) : M unit :=
  fun w => (Retorna tt,
            {| loja := loja w; dados := f (dados w);
               chamadas := chamadas w; lidas := lidas w |}).

(** The count of clock readings, read before the first loop and written
    back after it: the second loop reads no clock. *)
Definition lerRelogio : M nat := fun w => (Retorna (lidas w), w).

Definition guardaRelogio (n : nat) : M unit :=
  fun w => (Retorna tt,
            {| loja := loja w; dados := dados w;
               chamadas := chamadas w; lidas := n |}).

(** [if (res.error) throw res.error]. *)
Definition lancaSeErro (e : option ErroLoja) : M unit :=
  match e with
  | Some x => lanca (DaLoja x)
  | None => retorna tt
  end.

(** [res.data as T[]] followed by [.length]: a null is a TypeError. *)
Definition comoLista {A} (d : option (list A)) : M (list A) :=
  match d with
  | Some l => retorna l
  | None => lanca (TypeError "Cannot read properties of null")
  end.

(** The fetch of the custom transactions with its fallback (lines
    69-78 and 87): a rejection leaves [{ data: [], error: null }], and
    [data || []] reads a null as no rows. *)
Definition customizadasDe (r : Resposta (list Linha)) : list Linha :=
  match r with
  | Rejeitada _ => []
  | Resolvida (Some l) _ => l
  | Resolvida None _ => []
  end.

Definition carregando (prev : Dados) : Dados :=
  {| entradas := entradas prev; saidas := saidas prev;
     lucros := lucros prev; transacoes := transacoes prev;
     loading := true; error := None |}.

Definition comErro (prev : Dados) : Dados :=
  {| entradas := entradas prev; saidas := saidas prev;
     lucros := lucros prev; transacoes := transacoes prev;
     loading := false;
     error := Some "Erro ao carregar dados financeiros" |}.

(** [carregarDadosFinanceiros] (lines 54-200). The three requests of
    [Promise.all] are all issued before any is awaited. *)
Definition carregarDadosFinanceiros : M unit :=
  tentar
    (if negb (verdadeiro userId) then retorna tt
     else
       setDados carregando ;;;
       p1 <- chamar (ChSelect "clientes") select_clientes ;;
       p2 <- chamar (ChSelect "planos") select_planos ;;
       p3 <- chamar (ChSelect "produtos") select_produtos ;;
       clientesRes <- aguarda p1 ;;
       planosRes <- aguarda p2 ;;
       produtosRes <- aguarda p3 ;;
       transacoesRes <- chamar (ChSelect "transacoes") select_transacoes ;;
       lancaSeErro (snd clientesRes) ;;;
       lancaSeErro (snd planosRes) ;;;
       lancaSeErro (snd produtosRes) ;;;
       clientes <- comoLista (fst clientesRes) ;;
       planos <- comoLista (fst planosRes) ;;
       produtos <- comoLista (fst produtosRes) ;;
       n <- lerRelogio ;;
       guardaRelogio (leituras (derivadas rt n clientes planos produtos)) ;;;
       a <- resultado (agregar rt n clientes planos produtos
                               (customizadasDe transacoesRes)) ;;
       setDados (fun _ => dadosDe rt a))
    (fun _ => setDados comErro).

Definition linhaDe (nova : NovaTransacao) : LinhaNova :=
  {| ins_valor := nova_valor nova;
     ins_tipo := nova_tipo nova;
     ins_descricao := nova_descricao nova;
     ins_user_id := userId |}.

Definition tabelaAusente (e : ErroLoja) : bool :=
  String.eqb (code e) "PGRST205".

Definition mensagemSemTabela : string :=
  "A tabela de transações não existe e não foi possível criá-la automaticamente. Contacte o suporte.".

(** Lines 220-248: the table is created and the insert tried again. *)
Definition criaTabelaEInsere (nova : NovaTransacao) : M unit :=
  tentar
    (p <- chamar (ChInvoke "create-transacoes") invoke_create_transacoes ;;
     criada <- aguarda p ;;
     match snd criada with
     | Some createError =>
         lanca (NovoErro ("Erro ao criar tabela: " ++ message createError))
     | None =>
         q <- chamar (ChInsert (linhaDe nova))
                     (insert_transacao (linhaDe nova)) ;;
         inserida <- aguarda q ;;
         match snd inserida with
         | Some insertError => lanca (DaLoja insertError)
         | None => retorna tt
         end
     end)
    (fun _ => lanca (NovoErro mensagemSemTabela)).

(** [salvarTransacao] (lines 202-259). *)
Definition salvarTransacao (nova : NovaTransacao) : M unit :=
  tentar
    (if negb (verdadeiro userId)
     then lanca (NovoErro "Usuário não autenticado")
     else
       p <- chamar (ChInsert (linhaDe nova))
                   (insert_transacao (linhaDe nova)) ;;
       inserida <- aguarda p ;;
       match snd inserida with
       | Some error =>
           if tabelaAusente error then criaTabelaEInsere nova
           else lanca (DaLoja error)
       | None => retorna tt
       end ;;;
       carregarDadosFinanceiros)
    (fun error => lanca error).

(** [editarTransacao] (lines 261-280). *)
Definition editarTransacao (onde : string) (editada : NovaTransacao)
  : M unit :=
  tentar
    (p <- chamar (ChUpdate onde editada) (update_transacao onde editada) ;;
     r <- aguarda p ;;
     lancaSeErro (snd r) ;;;
     carregarDadosFinanceiros)
    (fun error => lanca error).

(** [excluirTransacao] (lines 282-297). *)
Definition excluirTransacao (onde : string) : M unit :=
  tentar
    (p <- chamar (ChDelete onde) (delete_transacao onde) ;;
     r <- aguarda p ;;
     lancaSeErro (snd r) ;;;
     carregarDadosFinanceiros)
    (fun error => lanca error).

End Operacoes.

(** ** The answers a load receives

    The four selects of one load, answered in turn from the state [s] of the
    outside world. *)
Section Respostas.
Context {S : Type} {loja_ops : Loja S}.

Definition aposClientes (s : S) : S := snd (select_clientes s).
Definition aposPlanos (s : S) : S := snd (select_planos (aposClientes s)).
Definition aposProdutos (s : S) : S := snd (select_produtos (aposPlanos s)).
Definition aposTransacoes (s : S) : S :=
  snd (select_transacoes (aposProdutos s)).

Definition resClientes (s : S) : Resposta (list Cliente) :=
  fst (select_clientes s).
Definition resPlanos (s : S) : Resposta (list Plano) :=
  fst (select_planos (aposClientes s)).
Definition resProdutos (s : S) : Resposta (list Produto) :=
  fst (select_produtos (aposPlanos s)).
Definition resTransacoes (s : S) : Resposta (list Linha) :=
  fst (select_transacoes (aposProdutos s)).
End Respostas.

(** What a failed call throws when it is awaited and its error checked. *)
Definition erroDe {A : Type} (r : Resposta A) : option Lancado :=
  match r with
  | Rejeitada x => Some x
  | Resolvida _ (Some e) => Some (DaLoja e)
  | Resolvida _ None => None
  end.

(** The [data] of an answer; a rejected promise has none. *)
Definition dataDe {A : Type} (r : Resposta A) : option A :=
  match r with
  | Rejeitada _ => None
  | Resolvida d _ => d
  end.

Definition ehSelect (c : Chamada) : bool :=
  match c with ChSelect _ => true | _ => false end.

Definition ehInsert (c : Chamada) : bool :=
  match c with ChInsert _ => true | _ => false end.

Definition ehInvoke (c : Chamada) : bool :=
  match c with ChInvoke _ => true | _ => false end.

(** How many calls of a kind a log holds. *)
Definition conta (f : Chamada -> bool) (l : list Chamada) : nat :=
  List.length (filter f l).

(** The calls logged between the world [w] and a later world [w']. *)
Definition novasChamadas {S : Type} (w w' : @Mundo S) : list Chamada :=
  skipn (List.length (chamadas w)) (chamadas w').

(** The world [w] with another ledger. *)
Definition comDados {S : Type} (w : @Mundo S) (d : Dados) : @Mundo S :=
  {| loja := loja w; dados := d; chamadas := chamadas w; lidas := lidas w |}.

(** [lucros] is [entradas - saidas]. *)
Definition lucroCoerente (d : Dados) : Prop :=
  lucros d = PrimFloat.sub (entradas d) (saidas d).

(** A fetch fails when its promise is rejected or its answer carries an
    error. *)
Definition falhou {A : Type} (r : Resposta A) : bool :=
  match r with
  | Rejeitada _ => true
  | Resolvida _ (Some _) => true
  | Resolvida _ None => false
  end.

Definition rejeitou {A : Type} (r : Resposta A) : bool :=
  match r with
  | Rejeitada _ => true
  | Resolvida _ _ => false
  end.

(** The rows of an answer without error. *)
Definition linhasDe {A : Type} (r : Resposta (list A)) : option (list A) :=
  match r with
  | Resolvida (Some l) None => Some l
  | _ => None
  end.

Definition selectsDaFonte : list Chamada :=
  [ChSelect "clientes"; ChSelect "planos"; ChSelect "produtos"].

Definition selectsDaCarga : list Chamada :=
  selectsDaFonte ++ [ChSelect "transacoes"].

(** The worlds a load with a user can end in. When a source fetch failed
    or gave no rows: the error message over the previous ledger, after three
    selects when one of them was rejected and after four otherwise. When
    the three sources gave rows: the ledger of the aggregate, or, when a
    custom row made the second loop throw, the error message over the
    previous ledger. *)
Section FimDaCarga.
Variable rt : Runtime.
Context {S : Type} {loja_ops : Loja S}.

Definition mundoComErro (w : @Mundo S) : @Mundo S :=
  let s := loja w in
  if rejeitou (resClientes s) || rejeitou (resPlanos s)
     || rejeitou (resProdutos s)
  then {| loja := aposProdutos s; dados := comErro (dados w);
          chamadas := chamadas w ++ selectsDaFonte; lidas := lidas w |}
  else {| loja := aposTransacoes s; dados := comErro (dados w);
          chamadas := chamadas w ++ selectsDaCarga; lidas := lidas w |}.

Definition mundoCarregado (w : @Mundo S) (c : list Cliente) (p : list Plano)
  (d : list Produto) : @Mundo S :=
  let s := loja w in
  {| loja := aposTransacoes s;
     dados :=
       match agregar rt (lidas w) c p d
               (customizadasDe (resTransacoes s)) with
       | Retorna a => dadosDe rt a
       | Lanca _ => comErro (dados w)
       end;
     chamadas := chamadas w ++ selectsDaCarga;
     lidas := leituras (derivadas rt (lidas w) c p d) |}.
End FimDaCarga.

(** ** Reading the entries of an aggregate *)

(** An entry counts as an inflow when its direction is the text "entrada",
    as an outflow otherwise. *)
Definition deEntrada (e : TransacaoFinanceira) : bool := ehEntrada (tipo e).
Definition deSaida (e : TransacaoFinanceira) : bool :=
  negb (ehEntrada (tipo e)).

(** The amounts of the entries of [l] that [f] keeps, added up from zero in
    the order of the list. *)
Definition somaDas (f : TransacaoFinanceira -> bool)
  (l : list TransacaoFinanceira) : number :=
  fold_left (fun s e => if f e then PrimFloat.add s (valor e) else s)
            l 0%float.

(** The two totals are the sums of the entries built so far. *)
Definition somado (a : Acumulado) : Prop :=
  totalEntradas a = somaDas deEntrada (acumuladas a)
  /\ totalSaidas a = somaDas deSaida (acumuladas a).

(** The clock was read between [n] times and [n] times plus once per
    entry built. *)
Definition lidoAte (n : nat) (a : Acumulado) : Prop :=
  (n <= leituras a <= n + List.length (acumuladas a))%nat.

(** The custom rows whose amount is a number. *)
Definition comValor (t : Linha) : bool :=
  negb (isNaN (parseFloatBruto (linha_valor t))).

(** The customer has a creation time to show. *)
Definition datado (c : Cliente) : bool := verdadeiro (cliente_created_at c).

(** Where an entry of the ledger comes from: the plan of a customer, the
    product of a customer, or a custom row. *)
Definition doPlano (cs : list Cliente) (ps : list Plano)
  (e : TransacaoFinanceira) : Prop :=
  exists c plano,
    In c cs /\ In plano ps
    /\ verdadeiro (cliente_plano c) = true
    /\ plano_id plano = cliente_plano c
    /\ valor e = valorDoPreco (plano_valor plano)
    /\ id e = "entrada-" ++ emTexto (cliente_id c)
    /\ cliente e = cliente_nome c
    /\ tipo e = Texto "entrada"
    /\ detalheTitulo e = "Plano"
    /\ detalheValor e = plano_nome plano
    /\ isCustom e = false
    /\ descricao e = None.

Definition doProduto (cs : list Cliente) (ds : list Produto)
  (e : TransacaoFinanceira) : Prop :=
  exists c produto,
    In c cs /\ In produto ds
    /\ verdadeiro (cliente_produto c) = true
    /\ produto_id produto = cliente_produto c
    /\ valor e = valorDoPreco (produto_valor produto)
    /\ id e = "saida-" ++ emTexto (cliente_id c)
    /\ cliente e = cliente_nome c
    /\ tipo e = Texto "saida"
    /\ detalheTitulo e = "Produto"
    /\ detalheValor e = produto_nome produto
    /\ isCustom e = false
    /\ descricao e = None.

Definition daLinha (ts : list Linha) (e : TransacaoFinanceira) : Prop :=
  exists t d,
    In t ts
    /\ linha_descricao t = Texto d
    /\ id e = linha_id t
    /\ valor e = parseFloatBruto (linha_valor t)
    /\ tipo e = linha_tipo t
    /\ detalheTitulo e = "Customizada"
    /\ isCustom e = true
    /\ descricao e = Some d.

(** ** When a creation inserts a row

    The row is inserted when there is a user and the insert succeeds, at
    once or, after the relation was reported missing and the provisioning
    succeeded, at the second try. *)
Section Salvou.
Context {S : Type} {loja_ops : Loja S}.

Definition semErro {A : Type} (r : Resposta A) : bool :=
  match erroDe r with Some _ => false | None => true end.

Definition salvou (userId : option string) (nova : NovaTransacao)
  (w : @Mundo S) : bool :=
  let l := linhaDe userId nova in
  let w1 := aposChamada w (ChInsert l) (snd (insert_transacao l (loja w))) in
  let w2 := aposChamada w1 (ChInvoke "create-transacoes")
              (snd (invoke_create_transacoes (loja w1))) in
  verdadeiro userId
  && match fst (insert_transacao l (loja w)) with
     | Rejeitada _ => false
     | Resolvida _ None => true
     | Resolvida _ (Some e) =>
         tabelaAusente e
         && semErro (fst (invoke_create_transacoes (loja w1)))
         && semErro (fst (insert_transacao l (loja w2)))
     end.

(** The three source fetches gave rows. *)
Definition fontesOk (s : S) : bool :=
  match linhasDe (resClientes s), linhasDe (resPlanos s),
        linhasDe (resProdutos s) with
  | Some _, Some _, Some _ => true
  | _, _, _ => false
  end.

(** One of the three source promises was rejected. *)
Definition fonteRejeitada (s : S) : bool :=
  rejeitou (resClientes s) || rejeitou (resPlanos s)
  || rejeitou (resProdutos s).

(** The second loop passes every custom row fetched. *)
Definition linhasPassam (s : S) : bool :=
  forallb passa (customizadasDe (resTransacoes s)).
End Salvou.

(** ** A store that answers from a script

    Every select has one answer; the inserts are answered in turn from a
    list, and succeed once the list is used up. *)
Record Roteiro := {
  rot_clientes : Resposta (list Cliente);
  rot_planos : Resposta (list Plano);
  rot_produtos : Resposta (list Produto);
  rot_transacoes : Resposta (list Linha);
  rot_inserts : list (Resposta unit);
  rot_invoke : Resposta unit;
  rot_update : Resposta unit;
  rot_delete : Resposta unit
}.

Definition rot_insere (r : Roteiro) : Resposta unit * Roteiro :=
  match rot_inserts r with
  | [] => (Resolvida None None, r)
  | x :: l =>
      (x, {| rot_clientes := rot_clientes r; rot_planos := rot_planos r;
             rot_produtos := rot_produtos r;
             rot_transacoes := rot_transacoes r;
             rot_inserts := l; rot_invoke := rot_invoke r;
             rot_update := rot_update r; rot_delete := rot_delete r |})
  end.

#[export] Instance lojaRoteiro : Loja Roteiro := {
  select_clientes r := (rot_clientes r, r);
  select_planos r := (rot_planos r, r);
  select_produtos r := (rot_produtos r, r);
  select_transacoes r := (rot_transacoes r, r);
  insert_transacao _ r := rot_insere r;
  update_transacao _ _ r := (rot_update r, r);
  delete_transacao _ r := (rot_delete r, r);
  invoke_create_transacoes r := (rot_invoke r, r)
}.

Definition mundoInicial {S : Type} (s : S) : Mundo :=
  {| loja := s; dados := dadosIniciais; chamadas := []; lidas := 0 |}.

End Financeiro.

(* ================================================================== *)
(** * A browser's dates *)
(* ================================================================== *)

(** The two implementation-defined functions as the browser engines have
    them, in the UTC time zone, for the two formats the hook meets:
    [toLocaleString('pt-BR')] writes [dd/mm/yyyy, hh:mm:ss], and the [Date]
    constructor reads the ISO format the store writes and, for a date
    written with slashes, the month first ([mm/dd/yyyy, hh:mm:ss]). What is
    in neither format is read as no date here. *)
Module Navegador.
Import JS.

(** Days from 1970-01-01 to the civil date [y]-[m]-[d]. *)
Definition diasDesde1970 (y m d : Z) : Z :=
  let y' := if m <=? 2 then y - 1 else y in
  let era := y' / 400 in
  let yoe := y' - era * 400 in
  let doy := (153 * (if 2 <? m then m - 3 else m + 9) + 2) / 5 + d - 1 in
  let doe := yoe * 365 + yoe / 4 - yoe / 100 + doy in
  era * 146097 + doe - 719468.

(** The civil date of a day number. *)
Definition dataCivil (z : Z) : Z * Z * Z :=
  let z := z + 719468 in
  let era := z / 146097 in
  let doe := z - era * 146097 in
  let yoe := (doe - doe / 1460 + doe / 36524 - doe / 146096) / 365 in
  let doy := doe - (365 * yoe + yoe / 4 - yoe / 100) in
  let mp := (5 * doy + 2) / 153 in
  let d := doy - (153 * mp + 2) / 5 + 1 in
  let m := if mp <? 10 then mp + 3 else mp - 9 in
  (yoe + era * 400 + (if m <=? 2 then 1 else 0), m, d).

Definition msPorDia : Z := 86400000.

Definition valorDoTempo (y m d hh mm ss : Z) : Z :=
  diasDesde1970 y m d * msPorDia + ((hh * 60 + mm) * 60 + ss) * 1000.

Definition algarismo (n : Z) : ascii :=
  ascii_of_nat (Z.to_nat (48 + n mod 10)).

Definition doisDigitos (n : Z) : string :=
  String (algarismo (n / 10)) (String (algarismo n) EmptyString).

Definition quatroDigitos (n : Z) : string :=
  doisDigitos (n / 100) ++ doisDigitos (n mod 100).

Definition toLocaleString (t : option Z) : string :=
  match t with
  | None => "Invalid Date"
  | Some ms =>
      let dia := ms / msPorDia in
      let seg := (ms mod msPorDia) / 1000 in
      let '(y, m, d) := dataCivil dia in
      doisDigitos d ++ "/" ++ doisDigitos m ++ "/" ++ quatroDigitos y ++ ", "
      ++ doisDigitos (seg / 3600) ++ ":" ++ doisDigitos ((seg / 60) mod 60)
      ++ ":" ++ doisDigitos (seg mod 60)
  end.

(** A run of digits followed by the text [sep]. *)
Definition campo (sep : string) (s : string) : option (Z * string) :=
  let '(v, n, r) := digitos s 0 0 in
  if (n =? 0) || negb (prefix sep r) then None
  else Some (v, substring (String.length sep) (String.length r) r).

Definition horario (s : string) : option (Z * Z * Z * string) :=
  match campo ":" s with
  | Some (hh, r1) =>
      match campo ":" r1 with
      | Some (mm, r2) =>
          match campo "" r2 with
          | Some (ss, r3) =>
              if (hh <? 24) && (mm <? 60) && (ss <? 60)
              then Some (hh, mm, ss, r3) else None
          | None => None
          end
      | None => None
      end
  | None => None
  end.

(** The fraction of a second, in milliseconds: a point and digits, of
    which the first three count. *)
Definition fracao (s : string) : Z * string :=
  match s with
  | String "." r =>
      let '(v, n, r') := digitos r 0 0 in
      if n =? 0 then (0, s) else (v * 1000 / 10 ^ n, r')
  | _ => (0, s)
  end.

(** The offset from UTC, in minutes: nothing, [Z], or a sign and
    [hh:mm]. *)
Definition fuso (s : string) : option Z :=
  match s with
  | "" => Some 0
  | "Z" => Some 0
  | String c r =>
      if Ascii.eqb c "+" || Ascii.eqb c "-" then
        match campo ":" r with
        | Some (hh, r1) =>
            match campo "" r1 with
            | Some (mm, r2) =>
                if (hh <? 24) && (mm <? 60) && String.eqb r2 ""
                then Some ((if Ascii.eqb c "-" then -1 else 1)
                           * (hh * 60 + mm))
                else None
            | None => None
            end
        | None => None
        end
      else None
  end.

(** [yyyy-mm-ddThh:mm:ss], with or without a fraction of a second, alone
    or followed by [Z] or by an offset from UTC. *)
Definition lerISO (s : string) : option Z :=
  match campo "-" s with
  | Some (y, r1) =>
      match campo "-" r1 with
      | Some (m, r2) =>
          match campo "T" r2 with
          | Some (d, r3) =>
              match horario r3 with
              | Some (hh, mm, ss, r4) =>
                  let '(ms, r5) := fracao r4 in
                  match fuso r5 with
                  | Some minutos =>
                      if (1 <=? m) && (m <=? 12) && (1 <=? d) && (d <=? 31)
                      then Some (valorDoTempo y m d hh mm ss + ms
                                 - minutos * 60000)
                      else None
                  | None => None
                  end
              | None => None
              end
          | None => None
          end
      | None => None
      end
  | None => None
  end.

(** [mm/dd/yyyy, hh:mm:ss]: the first field is the month. *)
Definition lerComBarras (s : string) : option Z :=
  match campo "/" s with
  | Some (m, r1) =>
      match campo "/" r1 with
      | Some (d, r2) =>
          match campo ", " r2 with
          | Some (y, r3) =>
              match horario r3 with
              | Some (hh, mm, ss, r4) =>
                  if (1 <=? m) && (m <=? 12) && (1 <=? d) && (d <=? 31)
                     && String.eqb r4 ""
                  then Some (valorDoTempo y m d hh mm ss) else None
              | None => None
              end
          | None => None
          end
      | None => None
      end
  | None => None
  end.

Definition Date_parse (s : string) : option Z :=
  match lerISO s with
  | Some t => Some t
  | None => lerComBarras s
  end.

Definition runtime : Financeiro.Runtime :=
  {| Financeiro.Date_parse := Date_parse;
     Financeiro.toLocaleString := toLocaleString;
     Financeiro.relogio := fun k => 1700000000000 + Z.of_nat k |}.

End Navegador.


(* ================================================================== *)
(** * The session card *)
(* ================================================================== *)

(** The two functions of the component [WhatsAppSession] that choose the
    badge of a session from its status. *)
Module WhatsAppSession.

Definition verde : string := "bg-green-100 text-green-800 border-green-200".
Definition amarelo : string :=
  "bg-yellow-100 text-yellow-800 border-yellow-200".
Definition cinza : string := "bg-gray-100 text-gray-800 border-gray-200".
Definition vermelho : string := "bg-red-100 text-red-800 border-red-200".

(** [getStatusColor] (lines 22-35). *)
Definition getStatusColor (status : string) : string :=
  if String.eqb status "connected" then verde
  else if String.eqb status "connecting" then amarelo
  else if String.eqb status "disconnected" then cinza
  else if String.eqb status "failed" then vermelho
  else cinza.

(** [getStatusText] (lines 37-50). *)
Definition getStatusText (status : string) : string :=
  if String.eqb status "connected" then "Conectado"
  else if String.eqb status "connecting" then "Conectando"
  else if String.eqb status "disconnected" then "Desconectado"
  else if String.eqb status "failed" then "Falhou"
  else status.

(** The statuses the type of [session.status] allows. *)
Definition conhecido (status : string) : bool :=
  String.eqb status "connected" || String.eqb status "connecting"
  || String.eqb status "disconnected" || String.eqb status "failed".

End WhatsAppSession.

(* ================================================================== *)
(** * Worlds to run the hook in *)
(* ================================================================== *)

Module Exemplos.
Import JS Financeiro.

Definition usuario : option string := Some "u1".

Definition nl : string := String "010" EmptyString.

Definition ok {A : Type} (l : list A) : Resposta (list A) :=
  Resolvida (Some l) None.

Definition feito : Resposta unit := Resolvida None None.

Definition recusado {A : Type} (e : ErroLoja) : Resposta A :=
  Resolvida None (Some e).

Definition erroSemTabela : ErroLoja :=
  {| code := "PGRST205";
     message := "Could not find the table 'public.transacoes' in the schema cache" |}.

Definition erroPermissao : ErroLoja :=
  {| code := "42501"; message := "permission denied for table transacoes" |}.

Definition erroFuncao : ErroLoja :=
  {| code := ""; message := "Edge Function returned a non-2xx status code" |}.

Definition planoMensal : Plano :=
  {| plano_id := Some "p1"; plano_nome := "Mensal"; plano_valor := "R$ 29,90" |}.

Definition planoIlegivel : Plano :=
  {| plano_id := Some "p2"; plano_nome := "Teste"; plano_valor := "R$ abc" |}.

Definition produtoCaixa : Produto :=
  {| produto_id := Some "d1"; produto_nome := "Caixa";
     produto_valor := "R$ 10,00" |}.

Definition produtoIlegivel : Produto :=
  {| produto_id := Some "d2"; produto_nome := "Amostra";
     produto_valor := "gratis" |}.

Definition clienteDe (i quando : string) (plano produto : option string)
  : Cliente :=
  {| cliente_id := Some i; cliente_nome := "Cliente " ++ i;
     cliente_created_at := Some quando;
     cliente_plano := plano; cliente_produto := produto |}.

Definition linhaAlice : Linha :=
  {| linha_id := "t1"; linha_valor := Numero 50%float;
     linha_tipo := Texto "entrada";
     linha_descricao :=
       Texto ("Alice" ++ nl ++ "monthly fee" ++ nl ++ "via card");
     linha_created_at := Some "2024-01-05T12:00:00Z" |}.


Definition linhaSemValor : Linha :=
  {| linha_id := "t3"; linha_valor := Nulo;
     linha_tipo := Texto "saida";
     linha_descricao := Texto "Bob";
     linha_created_at := Some "2024-01-07T12:00:00Z" |}.

Definition novaMensalidade : NovaTransacao :=
  {| nova_valor := 50%float; nova_tipo := entrada;
     nova_descricao := "Alice" ++ nl ++ "monthly fee" |}.

(** Customers of the monthly plan, each with the instant it was created
    at. *)
Definition clientesCriadosEm (l : list (string * string)) : list Cliente :=
  map (fun iq => clienteDe (fst iq) (snd iq) (Some "p1") None) l.

Definition lojaDosClientes (l : list (string * string)) : Roteiro :=
  {| rot_clientes := ok (clientesCriadosEm l);
     rot_planos := ok [planoMensal];
     rot_produtos := ok [];
     rot_transacoes := ok [];
     rot_inserts := []; rot_invoke := feito;
     rot_update := feito; rot_delete := feito |}.

(** Three customers created on one day at 10:00, 09:00 and 11:00. *)
Definition noDia (dia : string) : list (string * string) :=
  [("1", dia ++ "T10:00:00Z"); ("2", dia ++ "T09:00:00Z");
   ("3", dia ++ "T11:00:00Z")].

(** One customer created on the second of January, one on the first of
    February. *)
Definition janeiroEFevereiro : list (string * string) :=
  [("1", "2024-01-02T10:00:00Z"); ("2", "2024-02-01T10:00:00Z")].

(** The ledger a first load ends with. *)
Definition livroDe (r : Roteiro) : Dados :=
  dados (snd (carregarDadosFinanceiros Navegador.runtime usuario
                (mundoInicial r))).

(** Customers and rows some of which carry no number. *)
Definition clienteDoPlanoIlegivel : Cliente :=
  clienteDe "1" "2024-01-05T10:00:00Z" (Some "p2") (Some "d1").

Definition clienteDoProdutoIlegivel : Cliente :=
  clienteDe "2" "2024-01-06T10:00:00Z" (Some "p1") (Some "d2").

(** A store in working order, with one customer and one custom
    transaction. *)
Definition lojaEmOrdem : Roteiro :=
  {| rot_clientes :=
       ok [clienteDe "1" "2024-01-05T10:00:00Z" (Some "p1") (Some "d1")];
     rot_planos := ok [planoMensal];
     rot_produtos := ok [produtoCaixa];
     rot_transacoes := ok [linhaAlice];
     rot_inserts := []; rot_invoke := feito;
     rot_update := feito; rot_delete := feito |}.

(** The relation is missing, the provisioning succeeds, and the insert
    tried again is refused. *)
Definition lojaReinsercaoRecusada : Roteiro :=
  {| rot_clientes := rot_clientes lojaEmOrdem;
     rot_planos := rot_planos lojaEmOrdem;
     rot_produtos := rot_produtos lojaEmOrdem;
     rot_transacoes := rot_transacoes lojaEmOrdem;
     rot_inserts := [recusado erroSemTabela; recusado erroPermissao];
     rot_invoke := feito;
     rot_update := feito; rot_delete := feito |}.

(** The relation is missing and the provisioning fails. *)
Definition lojaSemProvisao : Roteiro :=
  {| rot_clientes := rot_clientes lojaEmOrdem;
     rot_planos := rot_planos lojaEmOrdem;
     rot_produtos := rot_produtos lojaEmOrdem;
     rot_transacoes := recusado erroSemTabela;
     rot_inserts := [recusado erroSemTabela];
     rot_invoke := recusado erroFuncao;
     rot_update := feito; rot_delete := feito |}.

(** The relation is missing twice: the provisioning reports success but the
    insert tried again still finds no relation. *)
Definition lojaSemTabelaDuasVezes : Roteiro :=
  {| rot_clientes := rot_clientes lojaEmOrdem;
     rot_planos := rot_planos lojaEmOrdem;
     rot_produtos := rot_produtos lojaEmOrdem;
     rot_transacoes := recusado erroSemTabela;
     rot_inserts := [recusado erroSemTabela; recusado erroSemTabela];
     rot_invoke := feito;
     rot_update := feito; rot_delete := feito |}.

(** Updates and deletes are refused. *)
Definition lojaSomenteLeitura : Roteiro :=
  {| rot_clientes := rot_clientes lojaEmOrdem;
     rot_planos := rot_planos lojaEmOrdem;
     rot_produtos := rot_produtos lojaEmOrdem;
     rot_transacoes := rot_transacoes lojaEmOrdem;
     rot_inserts := []; rot_invoke := feito;
     rot_update := recusado erroPermissao;
     rot_delete := recusado erroPermissao |}.

(** The select of the plans fails. *)
Definition lojaSemPlanos : Roteiro :=
  {| rot_clientes := rot_clientes lojaEmOrdem;
     rot_planos := recusado erroPermissao;
     rot_produtos := rot_produtos lojaEmOrdem;
     rot_transacoes := rot_transacoes lojaEmOrdem;
     rot_inserts := []; rot_invoke := feito;
     rot_update := feito; rot_delete := feito |}.

(** The store cannot be reached: the select of the customers is
    rejected. *)
Definition lojaForaDoAr : Roteiro :=
  {| rot_clientes := Rejeitada (Rejeicao "Failed to fetch");
     rot_planos := rot_planos lojaEmOrdem;
     rot_produtos := rot_produtos lojaEmOrdem;
     rot_transacoes := rot_transacoes lojaEmOrdem;
     rot_inserts := []; rot_invoke := feito;
     rot_update := feito; rot_delete := feito |}.

(** The relation is missing once: the provisioning creates it and the
    insert tried again succeeds. *)
Definition lojaSemTabelaUmaVez : Roteiro :=
  {| rot_clientes := rot_clientes lojaEmOrdem;
     rot_planos := rot_planos lojaEmOrdem;
     rot_produtos := rot_produtos lojaEmOrdem;
     rot_transacoes := rot_transacoes lojaEmOrdem;
     rot_inserts := [recusado erroSemTabela];
     rot_invoke := feito;
     rot_update := feito; rot_delete := feito |}.

(** The insert is refused for a reason other than a missing relation. *)
Definition lojaInsercaoRecusada : Roteiro :=
  {| rot_clientes := rot_clientes lojaEmOrdem;
     rot_planos := rot_planos lojaEmOrdem;
     rot_produtos := rot_produtos lojaEmOrdem;
     rot_transacoes := rot_transacoes lojaEmOrdem;
     rot_inserts := [recusado erroPermissao];
     rot_invoke := feito;
     rot_update := feito; rot_delete := feito |}.

(** A row with an amount and nothing else: no direction, no
    description. *)
Definition linhaSemDescricao : Linha :=
  {| linha_id := "t4"; linha_valor := Texto "12.5";
     linha_tipo := Nulo;
     linha_descricao := Nulo;
     linha_created_at := Some "2024-01-08T12:00:00Z" |}.

(** The store in working order with that row after the first. *)
Definition lojaComLinhaSemDescricao : Roteiro :=
  {| rot_clientes := rot_clientes lojaEmOrdem;
     rot_planos := rot_planos lojaEmOrdem;
     rot_produtos := rot_produtos lojaEmOrdem;
     rot_transacoes := ok [linhaAlice; linhaSemDescricao];
     rot_inserts := []; rot_invoke := feito;
     rot_update := feito; rot_delete := feito |}.


(** A world whose ledger was loaded before. *)
Definition mundoCarregadoAntes (r : Roteiro) : @Mundo Roteiro :=
  {| loja := r;
     dados := {| entradas := 100%float; saidas := 40%float;
                 lucros := 60%float;
                 transacoes := []; loading := false; error := None |};
     chamadas := []; lidas := 0 |}.

End Exemplos.

(* ================================================================== *)
(** * Properties *)
(* ================================================================== *)

Module Propriedades.
Import JS Financeiro.

(** ** What one load does

    The load never throws. Without a user it changes nothing. With a user it
    issues the three source selects; unless one of them is rejected it
    issues the select of the custom transactions; and it ends either with
    the aggregate of the rows received or, when a source fetch failed or gave
    no rows or a custom row made the second loop throw, with the error
    message over the previous ledger. *)
Section UmaCarga.
Variable rt : Runtime.
Context {S : Type} {loja_ops : Loja S}.
Variable userId : option string.

Lemma carregar_sem_usuario (w : @Mundo S) :
  verdadeiro userId = false ->
  carregarDadosFinanceiros rt userId w = (Retorna tt, w).
Proof.
  intros H. unfold carregarDadosFinanceiros, tentar. rewrite H. reflexivity.
Qed.

Lemma carregar_com_usuario (w : @Mundo S) :
  verdadeiro userId = true ->
  carregarDadosFinanceiros rt userId w =
  (Retorna tt,
   match linhasDe (resClientes (loja w)), linhasDe (resPlanos (loja w)),
         linhasDe (resProdutos (loja w)) with
   | Some c, Some p, Some d => mundoCarregado rt w c p d
   | _, _, _ => mundoComErro w
   end).
Proof.
  intros H.
  unfold carregarDadosFinanceiros, mundoCarregado, mundoComErro, tentar.
  unfold resClientes, resPlanos, resProdutos, resTransacoes,
    aposTransacoes, aposProdutos, aposPlanos, aposClientes.
  rewrite H. cbn [negb]. destruct w as [s0 d0 ch0 n0].
  unfold liga, chamar, setDados, lerRelogio, guardaRelogio, resultado.
  cbn -[agregar derivadas dadosDe].
  destruct (select_clientes s0) as [r1 s1]. cbn -[agregar derivadas dadosDe].
  destruct (select_planos s1) as [r2 s2]. cbn -[agregar derivadas dadosDe].
  destruct (select_produtos s2) as [r3 s3]. cbn -[agregar derivadas dadosDe].
  unfold selectsDaCarga, selectsDaFonte.
  destruct r1 as [x1|[c|] [e1|]]; destruct r2 as [x2|[p|] [e2|]];
    destruct r3 as [x3|[d|] [e3|]]; cbn -[agregar derivadas dadosDe];
    try destruct (select_transacoes s3) as [r4 s4];
    cbn -[agregar derivadas dadosDe];
    try destruct (agregar rt n0 c p d (customizadasDe r4));
    cbn -[agregar derivadas dadosDe];
    repeat rewrite <- app_assoc; reflexivity.
Qed.

Lemma carregar_retorna (w : @Mundo S) :
  fst (carregarDadosFinanceiros rt userId w) = Retorna tt.
Proof.
  destruct (verdadeiro userId) eqn:Hu.
  - now rewrite carregar_com_usuario.
  - now rewrite carregar_sem_usuario.
Qed.

Lemma carregar_fim (w : @Mundo S) :
  verdadeiro userId = true ->
  snd (carregarDadosFinanceiros rt userId w)
  = match linhasDe (resClientes (loja w)), linhasDe (resPlanos (loja w)),
          linhasDe (resProdutos (loja w)) with
    | Some c, Some p, Some d => mundoCarregado rt w c p d
    | _, _, _ => mundoComErro w
    end.
Proof. intros Hu. now rewrite carregar_com_usuario. Qed.

Lemma dados_mundoComErro (w : @Mundo S) :
  dados (mundoComErro w) = comErro (dados w).
Proof. unfold mundoComErro. now destruct (_ || _). Qed.

Lemma dados_mundoCarregado (w : @Mundo S) c p d :
  dados (mundoCarregado rt w c p d)
  = match agregar rt (lidas w) c p d
            (customizadasDe (resTransacoes (loja w))) with
    | Retorna a => dadosDe rt a
    | Lanca _ => comErro (dados w)
    end.
Proof. reflexivity. Qed.

(** The ledger a load with a user ends with. *)
Lemma dados_da_carga (w : @Mundo S) :
  verdadeiro userId = true ->
  dados (snd (carregarDadosFinanceiros rt userId w))
  = match linhasDe (resClientes (loja w)), linhasDe (resPlanos (loja w)),
          linhasDe (resProdutos (loja w)) with
    | Some c, Some p, Some d =>
        match agregar rt (lidas w) c p d
                (customizadasDe (resTransacoes (loja w))) with
        | Retorna a => dadosDe rt a
        | Lanca _ => comErro (dados w)
        end
    | _, _, _ => comErro (dados w)
    end.
Proof.
  intros Hu. rewrite carregar_fim by exact Hu.
  destruct (linhasDe (resClientes (loja w)));
    [destruct (linhasDe (resPlanos (loja w)));
     [destruct (linhasDe (resProdutos (loja w)))|]|];
    first [apply dados_mundoCarregado|apply dados_mundoComErro].
Qed.

Lemma rejeitou_sem_linhas {A} (r : Resposta (list A)) :
  rejeitou r = true -> linhasDe r = None.
Proof. now destruct r. Qed.

(** The calls a load logs: none without a user; else the selects of the
    three sources and, unless one of their promises was rejected, the select
    of the custom transactions. *)
Lemma chamadas_da_carga (w : @Mundo S) :
  chamadas (snd (carregarDadosFinanceiros rt userId w))
  = (chamadas w
     ++ if verdadeiro userId
        then if fonteRejeitada (loja w) then selectsDaFonte
             else selectsDaCarga
        else [])%list.
Proof.
  destruct (verdadeiro userId) eqn:Hu.
  2:{ rewrite carregar_sem_usuario by exact Hu. cbn. now rewrite app_nil_r. }
  rewrite carregar_fim by exact Hu. unfold fonteRejeitada.
  destruct (rejeitou (resClientes (loja w))) eqn:R1.
  { rewrite (rejeitou_sem_linhas _ R1). unfold mundoComErro.
    now rewrite R1. }
  destruct (rejeitou (resPlanos (loja w))) eqn:R2.
  { rewrite (rejeitou_sem_linhas _ R2). unfold mundoComErro.
    rewrite R1, R2. now destruct (linhasDe (resClientes (loja w))). }
  destruct (rejeitou (resProdutos (loja w))) eqn:R3.
  { rewrite (rejeitou_sem_linhas _ R3). unfold mundoComErro.
    rewrite R1, R2, R3.
    destruct (linhasDe (resClientes (loja w))); [|reflexivity].
    now destruct (linhasDe (resPlanos (loja w))). }
  cbn [orb].
  destruct (linhasDe (resClientes (loja w)));
    [destruct (linhasDe (resPlanos (loja w)));
     [destruct (linhasDe (resProdutos (loja w)))|]|];
    unfold mundoCarregado, mundoComErro; rewrite ?R1, ?R2, ?R3;
    reflexivity.
Qed.

(** [catch (error) { throw error }] changes nothing. *)
Lemma tentar_relanca {A} (m : @M S A) w :
  tentar m (fun error => lanca error) w = m w.
Proof.
  unfold tentar, lanca. now destruct (m w) as [[a|x] w'].
Qed.

(** The edit: one update, then the load when the update did not fail. *)
Lemma editar_passos (w : @Mundo S) onde editada :
  editarTransacao rt userId onde editada w =
  let w1 := aposChamada w (ChUpdate onde editada)
              (snd (update_transacao onde editada (loja w))) in
  match erroDe (fst (update_transacao onde editada (loja w))) with
  | Some x => (Lanca x, w1)
  | None => carregarDadosFinanceiros rt userId w1
  end.
Proof.
  unfold editarTransacao. rewrite tentar_relanca.
  unfold liga, chamar.
  destruct (update_transacao onde editada (loja w)) as [[x|d [e|]] s1];
    reflexivity.
Qed.

(** The deletion: one delete, then the load when it did not fail. *)
Lemma excluir_passos (w : @Mundo S) onde :
  excluirTransacao rt userId onde w =
  let w1 := aposChamada w (ChDelete onde)
              (snd (delete_transacao onde (loja w))) in
  match erroDe (fst (delete_transacao onde (loja w))) with
  | Some x => (Lanca x, w1)
  | None => carregarDadosFinanceiros rt userId w1
  end.
Proof.
  unfold excluirTransacao. rewrite tentar_relanca.
  unfold liga, chamar.
  destruct (delete_transacao onde (loja w)) as [[x|d [e|]] s1];
    reflexivity.
Qed.

(** The creation, step by step. *)
Lemma salvar_passos (w : @Mundo S) nova :
  verdadeiro userId = true ->
  salvarTransacao rt userId nova w =
  let l := linhaDe userId nova in
  let w1 := aposChamada w (ChInsert l) (snd (insert_transacao l (loja w))) in
  match fst (insert_transacao l (loja w)) with
  | Rejeitada x => (Lanca x, w1)
  | Resolvida _ None => carregarDadosFinanceiros rt userId w1
  | Resolvida _ (Some e) =>
      if tabelaAusente e then
        let w2 := aposChamada w1 (ChInvoke "create-transacoes")
                    (snd (invoke_create_transacoes (loja w1))) in
        match erroDe (fst (invoke_create_transacoes (loja w1))) with
        | Some _ => (Lanca (NovoErro mensagemSemTabela), w2)
        | None =>
            let w3 := aposChamada w2 (ChInsert l)
                        (snd (insert_transacao l (loja w2))) in
            match erroDe (fst (insert_transacao l (loja w2))) with
            | Some _ => (Lanca (NovoErro mensagemSemTabela), w3)
            | None => carregarDadosFinanceiros rt userId w3
            end
        end
      else (Lanca (DaLoja e), w1)
  end.
Proof.
  intros H. unfold salvarTransacao. rewrite tentar_relanca, H. cbn [negb].
  cbv beta iota zeta delta
    [liga chamar criaTabelaEInsere tentar aguarda lanca retorna fst snd].
  destruct (insert_transacao (linhaDe userId nova) (loja w))
    as [[x|d [e|]] s1]; try reflexivity.
  destruct (tabelaAusente e); [|reflexivity].
  cbn [loja aposChamada].
  destruct (invoke_create_transacoes s1) as [[x2|d2 [e2|]] s2];
    try reflexivity.
  cbn [loja aposChamada erroDe].
  destruct (insert_transacao (linhaDe userId nova) s2)
    as [[x3|d3 [e3|]] s3]; reflexivity.
Qed.

Lemma salvar_sem_usuario (w : @Mundo S) nova :
  verdadeiro userId = false ->
  salvarTransacao rt userId nova w
  = (Lanca (NovoErro "Usuário não autenticado"), w).
Proof.
  intros H. unfold salvarTransacao. rewrite tentar_relanca, H. reflexivity.
Qed.

(** A load logs selects only, after the calls already logged. *)
Lemma carregar_chamadas (w : @Mundo S) :
  exists sels,
    chamadas (snd (carregarDadosFinanceiros rt userId w))
    = (chamadas w ++ sels)%list
    /\ Forall (fun c => ehSelect c = true) sels.
Proof.
  eexists. split; [apply chamadas_da_carga|].
  destruct (verdadeiro userId); [|constructor].
  destruct (fonteRejeitada (loja w)); repeat constructor.
Qed.
End UmaCarga.

(** ** The sort of the ledger *)
Section Ordenacao.
Variable rt : Runtime.

Lemma insere_Permutation (x : TransacaoFinanceira) l :
  Permutation (insere (porDataDecrescente rt) x l) (x :: l).
Proof.
  induction l as [|y r IH]; cbn; [reflexivity|].
  destruct (0 <? _); [|reflexivity].
  rewrite IH. apply perm_swap.
Qed.

Lemma sort_Permutation l :
  Permutation (sort (porDataDecrescente rt) l) l.
Proof.
  induction l as [|x r IH]; cbn; [reflexivity|].
  rewrite insere_Permutation. now constructor.
Qed.

Lemma compara_legiveis a b :
  legivel rt a = true -> legivel rt b = true ->
  sortCompare (porDataDecrescente rt) a b = tempoDe rt b - tempoDe rt a.
Proof.
  unfold legivel, sortCompare, porDataDecrescente, tempoDe.
  destruct (Date_parse rt (data a)), (Date_parse rt (data b));
    intros; try discriminate; reflexivity.
Qed.

Lemma insere_ordenada x l :
  legivel rt x = true -> Forall (fun e => legivel rt e = true) l ->
  StronglySorted (maisRecenteAntes rt) l ->
  StronglySorted (maisRecenteAntes rt) (insere (porDataDecrescente rt) x l).
Proof.
  intros Hx Hl Hs. induction Hs as [|y r Hr IH Hy]; cbn.
  - repeat constructor.
  - inversion Hl as [|? ? Hly Hlr]; subst.
    rewrite (compara_legiveis x y Hx Hly).
    destruct (0 <? tempoDe rt y - tempoDe rt x) eqn:E.
    + apply Z.ltb_lt in E. constructor; [now apply IH|].
      rewrite insere_Permutation. constructor; [|exact Hy].
      unfold maisRecenteAntes. lia.
    + apply Z.ltb_ge in E. constructor; [now constructor|].
      constructor; [unfold maisRecenteAntes; lia|].
      eapply Forall_impl; [|exact Hy].
      unfold maisRecenteAntes. intros; lia.
Qed.

Lemma sort_legiveis l :
  Forall (fun e => legivel rt e = true) l ->
  Forall (fun e => legivel rt e = true) (sort (porDataDecrescente rt) l).
Proof.
  intros H. now rewrite sort_Permutation.
Qed.

(** With every display string read as a date, the sorted ledger is in
    descending order of the time read. *)
Lemma sort_ordenada l :
  Forall (fun e => legivel rt e = true) l ->
  StronglySorted (maisRecenteAntes rt) (sort (porDataDecrescente rt) l).
Proof.
  induction l as [|x r IH]; intros H; [constructor|].
  inversion H; subst. cbn [sort fold_right].
  fold (sort (porDataDecrescente rt) r).
  apply insere_ordenada; auto using sort_legiveis.
Qed.

Lemma insere_filtra (k : Z) x l :
  legivel rt x = true -> Forall (fun e => legivel rt e = true) l ->
  filter (fun e => tempoDe rt e =? k) (insere (porDataDecrescente rt) x l)
  = filter (fun e => tempoDe rt e =? k) (x :: l).
Proof.
  intros Hx Hl. induction Hl as [|y r Hy Hr IH]; [reflexivity|].
  cbn [insere]. rewrite (compara_legiveis x y Hx Hy).
  destruct (0 <? tempoDe rt y - tempoDe rt x) eqn:E; [|reflexivity].
  apply Z.ltb_lt in E. cbn [filter] in *. rewrite IH.
  destruct (tempoDe rt x =? k) eqn:Ex; [|reflexivity].
  apply Z.eqb_eq in Ex.
  destruct (tempoDe rt y =? k) eqn:Ey; [|reflexivity].
  apply Z.eqb_eq in Ey. lia.
Qed.

(** And the sort is stable: the entries of one time keep their order. *)
Lemma sort_estavel (k : Z) l :
  Forall (fun e => legivel rt e = true) l ->
  filter (fun e => tempoDe rt e =? k) (sort (porDataDecrescente rt) l)
  = filter (fun e => tempoDe rt e =? k) l.
Proof.
  induction l as [|x r IH]; intros H; [reflexivity|].
  inversion H; subst. cbn [sort fold_right].
  fold (sort (porDataDecrescente rt) r).
  rewrite insere_filtra by auto using sort_legiveis.
  cbn [filter]. now rewrite IH.
Qed.

(** When no display string is read as a date, every comparison is NaN
    and the ledger keeps the order it was built in. *)
Lemma sort_ilegiveis l :
  Forall (fun e => legivel rt e = false) l ->
  sort (porDataDecrescente rt) l = l.
Proof.
  induction 1 as [|x r Hx Hr IH]; [reflexivity|].
  cbn [sort fold_right]. fold (sort (porDataDecrescente rt) r).
  rewrite IH. destruct r as [|y r']; [reflexivity|].
  cbn [insere]. unfold sortCompare, porDataDecrescente.
  unfold legivel in Hx. destruct (Date_parse rt (data x)); [discriminate|].
  now destruct (Date_parse rt (data y)).
Qed.
End Ordenacao.

(** ** Splitting a description *)
Section Linhas.
Variable sep : ascii.






End Linhas.

(** ** The two loops of the aggregation *)
Section Agregacao.
Variable rt : Runtime.

Lemma paraCada_app {A B : Type} (f : B -> A -> Resultado B) l1 l2 b :
  paraCada f (l1 ++ l2) b
  = match paraCada f l1 b with
    | Retorna b' => paraCada f l2 b'
    | Lanca x => Lanca x
    end.
Proof.
  revert b. induction l1 as [|x r IH]; intros b; cbn; [reflexivity|].
  destruct (f b x); [apply IH|reflexivity].
Qed.

(** What holds before a loop and is kept by every turn that returns holds
    after the loop, when it returns. *)
Lemma paraCada_mantem {A B : Type} (P : B -> Prop)
  (f : B -> A -> Resultado B) l :
  (forall b x b', P b -> f b x = Retorna b' -> P b') ->
  forall b b', P b -> paraCada f l b = Retorna b' -> P b'.
Proof.
  intros Hf. induction l as [|x r IH]; intros b b' Hb H; cbn in H.
  - now injection H as <-.
  - destruct (f b x) as [b1|e] eqn:E; [|discriminate].
    exact (IH b1 b' (Hf b x b1 Hb E) H).
Qed.

Lemma dataDoCliente_semPlano c n :
  dataDoCliente rt (semPlano c) n = dataDoCliente rt c n.
Proof. reflexivity. Qed.

Lemma lancaPlano_ilegivel pm c a plano :
  Map_get pm (cliente_plano c) = Some plano ->
  isNaN (valorDoPreco (plano_valor plano)) = true ->
  lancaPlano rt pm c a = a.
Proof.
  intros Hg Hn. unfold lancaPlano. rewrite Hg, Hn.
  now destruct (verdadeiro (cliente_plano c)).
Qed.

Lemma lancaProduto_ilegivel dm c a produto :
  Map_get dm (cliente_produto c) = Some produto ->
  isNaN (valorDoPreco (produto_valor produto)) = true ->
  lancaProduto rt dm c a = a.
Proof.
  intros Hg Hn. unfold lancaProduto. rewrite Hg, Hn.
  now destruct (verdadeiro (cliente_produto c)).
Qed.

Lemma lancaCliente_semPlano pm dm a c plano :
  Map_get pm (cliente_plano c) = Some plano ->
  isNaN (valorDoPreco (plano_valor plano)) = true ->
  lancaCliente rt pm dm a c = lancaCliente rt pm dm a (semPlano c).
Proof.
  intros Hg Hn. unfold lancaCliente.
  rewrite (lancaPlano_ilegivel pm c a plano Hg Hn). reflexivity.
Qed.

Lemma lancaCliente_semProduto pm dm a c produto :
  Map_get dm (cliente_produto c) = Some produto ->
  isNaN (valorDoPreco (produto_valor produto)) = true ->
  lancaCliente rt pm dm a c = lancaCliente rt pm dm a (semProduto c).
Proof.
  intros Hg Hn. unfold lancaCliente.
  rewrite (lancaProduto_ilegivel dm c _ produto Hg Hn). reflexivity.
Qed.

(** *** One turn of the second loop *)

(** A row without a number is passed over, whatever else it holds. *)
Lemma lancaCustomizada_ilegivel a t :
  isNaN (parseFloatBruto (linha_valor t)) = true ->
  lancaCustomizada rt a t = Retorna a.
Proof. intros Hn. unfold lancaCustomizada. now rewrite Hn. Qed.

(** A row with a number and a string as description is entered. *)
Lemma lancaCustomizada_texto a t d :
  isNaN (parseFloatBruto (linha_valor t)) = false ->
  linha_descricao t = Texto d ->
  lancaCustomizada rt a t
  = Retorna
      {| totalEntradas :=
           if ehEntrada (linha_tipo t)
           then PrimFloat.add (totalEntradas a)
                              (parseFloatBruto (linha_valor t))
           else totalEntradas a;
         totalSaidas :=
           if ehEntrada (linha_tipo t)
           then totalSaidas a
           else PrimFloat.add (totalSaidas a)
                              (parseFloatBruto (linha_valor t));
         acumuladas :=
           acumuladas a
           ++ [entradaDoTexto rt t (parseFloatBruto (linha_valor t)) d];
         leituras := leituras a |}.
Proof.
  intros Hn Hd. unfold lancaCustomizada, entradaCustomizada.
  now rewrite Hn, Hd.
Qed.

(** A row with a number and anything else as description makes the turn
    throw a TypeError. *)
Lemma lancaCustomizada_sem_texto a t :
  passa t = false ->
  exists m, lancaCustomizada rt a t = Lanca (TypeError m).
Proof.
  unfold passa, lancaCustomizada, entradaCustomizada. intros H.
  apply orb_false_iff in H as [Hn Hd]. rewrite Hn.
  destruct (linha_descricao t); [eexists; reflexivity..|discriminate].
Qed.

(** The turns that return are these two. *)
Lemma lancaCustomizada_retorna a t a' :
  lancaCustomizada rt a t = Retorna a' ->
  (isNaN (parseFloatBruto (linha_valor t)) = true /\ a' = a)
  \/ (isNaN (parseFloatBruto (linha_valor t)) = false
      /\ exists d,
           linha_descricao t = Texto d
           /\ a' = {| totalEntradas :=
                        if ehEntrada (linha_tipo t)
                        then PrimFloat.add (totalEntradas a)
                               (parseFloatBruto (linha_valor t))
                        else totalEntradas a;
                      totalSaidas :=
                        if ehEntrada (linha_tipo t)
                        then totalSaidas a
                        else PrimFloat.add (totalSaidas a)
                               (parseFloatBruto (linha_valor t));
                      acumuladas :=
                        acumuladas a
                        ++ [entradaDoTexto rt t
                              (parseFloatBruto (linha_valor t)) d];
                      leituras := leituras a |}).
Proof.
  intros H.
  destruct (isNaN (parseFloatBruto (linha_valor t))) eqn:Hn.
  - left. rewrite lancaCustomizada_ilegivel in H by exact Hn.
    injection H as <-. now split.
  - right. split; [reflexivity|].
    destruct (linha_descricao t) as [|x|d] eqn:Hd.
    + unfold lancaCustomizada, entradaCustomizada in H.
      rewrite Hn, Hd in H. discriminate.
    + unfold lancaCustomizada, entradaCustomizada in H.
      rewrite Hn, Hd in H. discriminate.
    + exists d. split; [reflexivity|].
      rewrite (lancaCustomizada_texto a t d Hn Hd) in H.
      now injection H as <-.
Qed.

Lemma passa_retorna a t a' :
  lancaCustomizada rt a t = Retorna a' -> passa t = true.
Proof.
  intros H. unfold passa.
  apply lancaCustomizada_retorna in H as [[Hn _]|[_ (d & Hd & _)]].
  - now rewrite Hn.
  - rewrite Hd. apply orb_true_r.
Qed.

(** *** The second loop *)

(** The loop returns exactly when it passes every row. *)
Lemma customizadas_passam ts a :
  forallb passa ts = true ->
  exists a', paraCada (lancaCustomizada rt) ts a = Retorna a'.
Proof.
  revert a. induction ts as [|t r IH]; intros a H; cbn in *.
  - now exists a.
  - apply andb_true_iff in H as [Ht Hr].
    destruct (lancaCustomizada rt a t) as [a1|x] eqn:E; [now apply IH|].
    unfold passa in Ht.
    destruct (isNaN (parseFloatBruto (linha_valor t))) eqn:Hn.
    + rewrite lancaCustomizada_ilegivel in E by exact Hn. discriminate.
    + cbn in Ht. destruct (linha_descricao t) as [|y|d] eqn:Hd;
        try discriminate.
      rewrite (lancaCustomizada_texto a t d Hn Hd) in E. discriminate.
Qed.

Lemma customizadas_nao_passam ts a :
  forallb passa ts = false ->
  exists m, paraCada (lancaCustomizada rt) ts a = Lanca (TypeError m).
Proof.
  revert a. induction ts as [|t r IH]; intros a H; cbn in *;
    [discriminate|].
  destruct (passa t) eqn:Ht.
  - cbn in H. destruct (lancaCustomizada rt a t) as [a1|x] eqn:E;
      [now apply IH|].
    destruct (customizadas_passam [t] a) as [a' Ha];
      [cbn; now rewrite Ht|].
    cbn in Ha. rewrite E in Ha. discriminate.
  - destruct (lancaCustomizada_sem_texto a t Ht) as [m Hm].
    exists m. now rewrite Hm.
Qed.

Lemma customizadas_retorna ts a a' :
  paraCada (lancaCustomizada rt) ts a = Retorna a' ->
  forallb passa ts = true.
Proof.
  intros H. destruct (forallb passa ts) eqn:E; [reflexivity|].
  destruct (customizadas_nao_passam ts a E) as [m Hm]. congruence.
Qed.

(** The second loop only appends to the list of the first. *)
Lemma acumuladas_customizadas ts a a' :
  paraCada (lancaCustomizada rt) ts a = Retorna a' ->
  acumuladas a' = (acumuladas a ++ entradasCustomizadas rt ts)%list.
Proof.
  revert a. induction ts as [|t r IH]; intros a H; cbn [paraCada] in H.
  - injection H as <-. cbn. now rewrite app_nil_r.
  - destruct (lancaCustomizada rt a t) as [a1|x] eqn:E; [|discriminate].
    rewrite (IH a1 H). unfold entradasCustomizadas. cbn [flat_map].
    apply lancaCustomizada_retorna in E as [[Hn ->]|[Hn (d & Hd & ->)]];
      rewrite Hn; [reflexivity|].
    unfold entradaCustomizada. rewrite Hd. cbn [acumuladas].
    now rewrite <- app_assoc.
Qed.

(** It reads no clock. *)
Lemma leituras_customizadas ts a a' :
  paraCada (lancaCustomizada rt) ts a = Retorna a' ->
  leituras a' = leituras a.
Proof.
  apply (paraCada_mantem (fun b => leituras b = leituras a));
    [|reflexivity].
  intros b t b' Hb E.
  apply lancaCustomizada_retorna in E as [[_ ->]|[Hn (d & Hd & ->)]];
    exact Hb.
Qed.

(** *** Every entry carries a number *)

Lemma comNumero_lancaPlano pm c a :
  Forall comNumero (acumuladas a) ->
  Forall comNumero (acumuladas (lancaPlano rt pm c a)).
Proof.
  intros H. unfold lancaPlano.
  destruct (verdadeiro (cliente_plano c)); [|exact H].
  destruct (Map_get pm (cliente_plano c)) as [plano|]; [|exact H].
  destruct (isNaN (valorDoPreco (plano_valor plano))) eqn:E; [exact H|].
  destruct (dataDoCliente rt c (leituras a)) as [d n]. cbn [acumuladas].
  apply Forall_app. split; [exact H|]. repeat constructor. exact E.
Qed.

Lemma comNumero_lancaProduto dm c a :
  Forall comNumero (acumuladas a) ->
  Forall comNumero (acumuladas (lancaProduto rt dm c a)).
Proof.
  intros H. unfold lancaProduto.
  destruct (verdadeiro (cliente_produto c)); [|exact H].
  destruct (Map_get dm (cliente_produto c)) as [produto|]; [|exact H].
  destruct (isNaN (valorDoPreco (produto_valor produto))) eqn:E; [exact H|].
  destruct (dataDoCliente rt c (leituras a)) as [d n]. cbn [acumuladas].
  apply Forall_app. split; [exact H|]. repeat constructor. exact E.
Qed.

Lemma comNumero_clientes pm dm cs a :
  Forall comNumero (acumuladas a) ->
  Forall comNumero (acumuladas (fold_left (lancaCliente rt pm dm) cs a)).
Proof.
  revert a. induction cs as [|c r IH]; intros a H; [exact H|].
  cbn [fold_left]. apply IH. unfold lancaCliente.
  now apply comNumero_lancaProduto, comNumero_lancaPlano.
Qed.

Lemma comNumero_customizadas ts :
  Forall comNumero (entradasCustomizadas rt ts).
Proof.
  induction ts as [|t r IH]; [constructor|].
  unfold entradasCustomizadas. cbn [flat_map].
  destruct (isNaN (parseFloatBruto (linha_valor t))) eqn:E; [exact IH|].
  unfold entradaCustomizada.
  destruct (linha_descricao t); try exact IH.
  constructor; [exact E|exact IH].
Qed.

(** Every entry of the aggregate carries a number. *)
Lemma comNumero_agregar n cs ps ds ts a :
  agregar rt n cs ps ds ts = Retorna a ->
  Forall comNumero (acumuladas a).
Proof.
  unfold agregar. intros H. rewrite (acumuladas_customizadas _ _ _ H).
  apply Forall_app. split; [|apply comNumero_customizadas].
  apply comNumero_clientes. constructor.
Qed.

(** *** The totals are the sums of the entries *)

Lemma somaDas_mais_uma f l e :
  somaDas f (l ++ [e])
  = if f e then PrimFloat.add (somaDas f l) (valor e) else somaDas f l.
Proof. unfold somaDas. now rewrite fold_left_app. Qed.

Lemma somado_lancaPlano pm c a :
  somado a -> somado (lancaPlano rt pm c a).
Proof.
  intros [He Hs]. unfold lancaPlano.
  destruct (verdadeiro (cliente_plano c)); [|now split].
  destruct (Map_get pm (cliente_plano c)) as [plano|]; [|now split].
  destruct (isNaN (valorDoPreco (plano_valor plano))); [now split|].
  destruct (dataDoCliente rt c (leituras a)) as [d n].
  split; cbn [totalEntradas totalSaidas acumuladas];
    rewrite somaDas_mais_uma; first [rewrite He|rewrite Hs]; reflexivity.
Qed.

Lemma somado_lancaProduto dm c a :
  somado a -> somado (lancaProduto rt dm c a).
Proof.
  intros [He Hs]. unfold lancaProduto.
  destruct (verdadeiro (cliente_produto c)); [|now split].
  destruct (Map_get dm (cliente_produto c)) as [produto|]; [|now split].
  destruct (isNaN (valorDoPreco (produto_valor produto))); [now split|].
  destruct (dataDoCliente rt c (leituras a)) as [d n].
  split; cbn [totalEntradas totalSaidas acumuladas];
    rewrite somaDas_mais_uma; first [rewrite He|rewrite Hs]; reflexivity.
Qed.

Lemma somado_lancaCustomizada a t a' :
  somado a -> lancaCustomizada rt a t = Retorna a' -> somado a'.
Proof.
  intros [He Hs] E.
  apply lancaCustomizada_retorna in E as [[_ ->]|[Hn (d & Hd & ->)]];
    [now split|].
  split; cbn [totalEntradas totalSaidas acumuladas];
    rewrite somaDas_mais_uma; unfold deEntrada, deSaida;
    cbn [entradaDoTexto tipo valor];
    destruct (ehEntrada (linha_tipo t)); cbn [negb];
    first [rewrite He|rewrite Hs]; reflexivity.
Qed.

Lemma somado_clientes pm dm cs a :
  somado a -> somado (fold_left (lancaCliente rt pm dm) cs a).
Proof.
  revert a. induction cs as [|c r IH]; intros a H; [exact H|].
  cbn [fold_left]. apply IH. unfold lancaCliente.
  now apply somado_lancaProduto, somado_lancaPlano.
Qed.

Lemma somado_derivadas n cs ps ds : somado (derivadas rt n cs ps ds).
Proof. unfold derivadas. apply somado_clientes. now split. Qed.

Lemma somado_agregar n cs ps ds ts a :
  agregar rt n cs ps ds ts = Retorna a -> somado a.
Proof.
  unfold agregar.
  apply (paraCada_mantem somado); [|apply somado_derivadas].
  intros b t b'. apply somado_lancaCustomizada.
Qed.
End Agregacao.

(** ** Loads that fail, and what a load carries over *)
Section Cargas.
Variable rt : Runtime.
Context {S : Type} {loja_ops : Loja S}.
Variable userId : option string.

Lemma falhou_sem_linhas {A} (r : Resposta (list A)) :
  falhou r = true -> linhasDe r = None.
Proof. destruct r as [x|[l|] [e|]]; cbn; congruence. Qed.

Lemma rejeitou_falhou {A} (r : Resposta A) :
  rejeitou r = true -> falhou r = true.
Proof. destruct r as [x|d [e|]]; cbn; congruence. Qed.

Lemma carregar_fonte_falhou (w : @Mundo S) :
  verdadeiro userId = true ->
  falhou (resClientes (loja w)) || falhou (resPlanos (loja w))
    || falhou (resProdutos (loja w)) = true ->
  carregarDadosFinanceiros rt userId w = (Retorna tt, mundoComErro w).
Proof.
  intros Hu Hf. rewrite carregar_com_usuario by exact Hu.
  apply orb_true_iff in Hf as [Hf|Hf];
    [apply orb_true_iff in Hf as [Hf|Hf]|];
    apply falhou_sem_linhas in Hf; rewrite Hf;
    repeat match goal with
           | |- context [match ?x with _ => _ end] => destruct x
           end; reflexivity.
Qed.

(** C8: when the fetch of the customers, of the plans or of the products
    fails during a load (its promise is rejected or its answer carries an
    error), the load ends without throwing, with the fixed message
    "Erro ao carregar dados financeiros" as the error, the loading flag
    cleared, and the totals and the list of entries as they were before
    the load. *)
Theorem C8_falha_na_fonte (w : @Mundo S) :
  verdadeiro userId = true ->
  falhou (resClientes (loja w)) || falhou (resPlanos (loja w))
    || falhou (resProdutos (loja w)) = true ->
  let fim := carregarDadosFinanceiros rt userId w in
  fst fim = Retorna tt
  /\ error (dados (snd fim)) = Some "Erro ao carregar dados financeiros"
  /\ loading (dados (snd fim)) = false
  /\ entradas (dados (snd fim)) = entradas (dados w)
  /\ saidas (dados (snd fim)) = saidas (dados w)
  /\ lucros (dados (snd fim)) = lucros (dados w)
  /\ transacoes (dados (snd fim)) = transacoes (dados w).
Proof.
  intros Hu Hf fim. subst fim.
  rewrite (carregar_fonte_falhou w Hu Hf). cbn [fst snd].
  rewrite dados_mundoComErro. repeat split.
Qed.

(** C9: when the three source fetches succeed and the fetch of the custom
    transactions fails (its promise is rejected, or it answers with an
    error and no rows), the load ends without throwing and without an
    error message, and the ledger is the one computed from the derived
    entries alone, exactly as when that fetch answers with no rows: the
    total inflow and the total outflow are the sums of the amounts of the
    derived entries, the net profit is their difference, and the entries
    listed are the derived ones. *)
Theorem C9_falha_nas_customizadas (w : @Mundo S) c p d :
  verdadeiro userId = true ->
  linhasDe (resClientes (loja w)) = Some c ->
  linhasDe (resPlanos (loja w)) = Some p ->
  linhasDe (resProdutos (loja w)) = Some d ->
  falhou (resTransacoes (loja w)) = true ->
  dataDe (resTransacoes (loja w)) = None ->
  let fim := carregarDadosFinanceiros rt userId w in
  let derivada := derivadas rt (lidas w) c p d in
  fst fim = Retorna tt
  /\ customizadasDe (resTransacoes (loja w)) = []
  /\ agregar rt (lidas w) c p d [] = Retorna derivada
  /\ dados (snd fim) = dadosDe rt derivada
  /\ error (dados (snd fim)) = None
  /\ loading (dados (snd fim)) = false
  /\ entradas (dados (snd fim)) = somaDas deEntrada (acumuladas derivada)
  /\ saidas (dados (snd fim)) = somaDas deSaida (acumuladas derivada)
  /\ lucros (dados (snd fim))
     = PrimFloat.sub (somaDas deEntrada (acumuladas derivada))
                     (somaDas deSaida (acumuladas derivada))
  /\ Permutation (transacoes (dados (snd fim))) (acumuladas derivada).
Proof.
  intros Hu Hc Hp Hd Hf Hn fim derivada. subst fim derivada.
  assert (E : customizadasDe (resTransacoes (loja w)) = []).
  { destruct (resTransacoes (loja w)) as [x|[l|] e]; cbn in *;
      congruence. }
  assert (D : dados (snd (carregarDadosFinanceiros rt userId w))
              = dadosDe rt (derivadas rt (lidas w) c p d)).
  { rewrite dados_da_carga by exact Hu. rewrite Hc, Hp, Hd, E.
    reflexivity. }
  destruct (somado_derivadas rt (lidas w) c p d) as [He Hs].
  split; [apply carregar_retorna|]. split; [exact E|].
  split; [reflexivity|]. split; [exact D|]. rewrite D.
  cbn [dadosDe error loading entradas saidas lucros transacoes].
  rewrite <- He, <- Hs.
  do 5 (split; [reflexivity|]). apply sort_Permutation.
Qed.

Lemma lucroCoerente_inicial : lucroCoerente dadosIniciais.
Proof. reflexivity. Qed.

Lemma lucroCoerente_dadosDe a : lucroCoerente (dadosDe rt a).
Proof. reflexivity. Qed.

Lemma lucroCoerente_comErro d : lucroCoerente d -> lucroCoerente (comErro d).
Proof. intros H. exact H. Qed.

(** A load with a user that ends without the error message is one whose
    three sources gave rows and whose second loop returned. *)
Lemma carga_sem_erro (w : @Mundo S) :
  verdadeiro userId = true ->
  error (dados (snd (carregarDadosFinanceiros rt userId w))) = None ->
  exists c p d a,
    linhasDe (resClientes (loja w)) = Some c
    /\ linhasDe (resPlanos (loja w)) = Some p
    /\ linhasDe (resProdutos (loja w)) = Some d
    /\ agregar rt (lidas w) c p d
         (customizadasDe (resTransacoes (loja w))) = Retorna a
    /\ dados (snd (carregarDadosFinanceiros rt userId w)) = dadosDe rt a.
Proof.
  intros Hu. rewrite dados_da_carga by exact Hu.
  destruct (linhasDe (resClientes (loja w))) as [c|];
    [destruct (linhasDe (resPlanos (loja w))) as [p|];
     [destruct (linhasDe (resProdutos (loja w))) as [d|]|]|];
    try discriminate.
  destruct (agregar rt (lidas w) c p d _) as [a|x] eqn:Ea;
    [|discriminate].
  intros _. exists c, p, d, a. repeat split; first [reflexivity|exact Ea].
Qed.

(** And one that ends with an error message ends with the fixed one, over
    the previous ledger. *)
Lemma carga_com_erro (w : @Mundo S) :
  verdadeiro userId = true ->
  error (dados (snd (carregarDadosFinanceiros rt userId w))) <> None ->
  dados (snd (carregarDadosFinanceiros rt userId w)) = comErro (dados w).
Proof.
  intros Hu. rewrite dados_da_carga by exact Hu.
  destruct (linhasDe (resClientes (loja w))) as [c|];
    [destruct (linhasDe (resPlanos (loja w))) as [p|];
     [destruct (linhasDe (resProdutos (loja w))) as [d|]|]|];
    try reflexivity.
  destruct (agregar rt (lidas w) c p d _) as [a|x]; [|reflexivity].
  intros H. now contradiction H.
Qed.

(** C5 (amended): a load keeps the net profit equal to the total inflow
    minus the total outflow. A load with a user that ends without the error
    message has recomputed the three totals from the rows fetched alone:
    the total inflow and the total outflow are the sums of the amounts of
    the entries built, derived and custom alike (the inflow over the
    entries of direction "entrada", the outflow over the others), the net
    profit is the difference of these sums, the entries listed are the
    entries built, and the same load started over any other previous
    ledger ends with the same ledger. A load that ends with the error
    message, or has no user, recomputes nothing: the three totals and the
    list are those of the previous ledger. *)
Theorem C5_lucro_e_recalculo (w : @Mundo S) :
  lucroCoerente (dados w) ->
  let fim := snd (carregarDadosFinanceiros rt userId w) in
  lucroCoerente (dados fim)
  /\ (verdadeiro userId = true -> error (dados fim) = None ->
      exists c p d a,
        linhasDe (resClientes (loja w)) = Some c
        /\ linhasDe (resPlanos (loja w)) = Some p
        /\ linhasDe (resProdutos (loja w)) = Some d
        /\ agregar rt (lidas w) c p d
             (customizadasDe (resTransacoes (loja w))) = Retorna a
        /\ acumuladas a
           = (acumuladas (derivadas rt (lidas w) c p d)
              ++ entradasCustomizadas rt
                   (customizadasDe (resTransacoes (loja w))))%list
        /\ entradas (dados fim) = somaDas deEntrada (acumuladas a)
        /\ saidas (dados fim) = somaDas deSaida (acumuladas a)
        /\ lucros (dados fim)
           = PrimFloat.sub (somaDas deEntrada (acumuladas a))
                           (somaDas deSaida (acumuladas a))
        /\ Permutation (transacoes (dados fim)) (acumuladas a)
        /\ forall anterior : Dados,
             dados (snd (carregarDadosFinanceiros rt userId
                           (comDados w anterior)))
             = dados fim)
  /\ (verdadeiro userId = false \/ error (dados fim) <> None ->
      entradas (dados fim) = entradas (dados w)
      /\ saidas (dados fim) = saidas (dados w)
      /\ lucros (dados fim) = lucros (dados w)
      /\ transacoes (dados fim) = transacoes (dados w)).
Proof.
  intros Hw fim. subst fim. split; [|split].
  - destruct (verdadeiro userId) eqn:Hu.
    + rewrite dados_da_carga by exact Hu.
      destruct (linhasDe (resClientes (loja w))) as [c|];
        [destruct (linhasDe (resPlanos (loja w))) as [p|];
         [destruct (linhasDe (resProdutos (loja w))) as [d|]|]|];
        try exact Hw.
      destruct (agregar rt (lidas w) c p d _) as [a|x]; [|exact Hw].
      apply lucroCoerente_dadosDe.
    + now rewrite carregar_sem_usuario.
  - intros Hu He.
    destruct (carga_sem_erro w Hu He) as (c & p & d & a & Ec & Ep & Ed & Ea & D).
    exists c, p, d, a.
    do 4 (split; [assumption|]).
    split; [exact (acumuladas_customizadas rt _ _ _ Ea)|].
    destruct (somado_agregar rt _ _ _ _ _ _ Ea) as [Se Ss].
    rewrite D. cbn [dadosDe entradas saidas lucros transacoes].
    rewrite <- Se, <- Ss.
    do 3 (split; [reflexivity|]). split; [apply sort_Permutation|].
    intros anterior. rewrite dados_da_carga by exact Hu.
    cbn [comDados loja lidas]. now rewrite Ec, Ep, Ed, Ea.
  - intros [Hu|He].
    + rewrite carregar_sem_usuario by exact Hu. now repeat split.
    + destruct (verdadeiro userId) eqn:Hu.
      * rewrite (carga_com_erro w Hu He). now repeat split.
      * rewrite carregar_sem_usuario by exact Hu. now repeat split.
Qed.
End Cargas.

(** ** The write operations *)
Section Escritas.
Variable rt : Runtime.
Context {S : Type} {loja_ops : Loja S}.
Variable userId : option string.

Lemma novasChamadas_app (w w' : @Mundo S) l :
  chamadas w' = (chamadas w ++ l)%list -> novasChamadas w w' = l.
Proof.
  intros H. unfold novasChamadas. rewrite H.
  rewrite skipn_app, skipn_all, Nat.sub_diag. reflexivity.
Qed.

Lemma conta_app f (l1 l2 : list Chamada) :
  conta f (l1 ++ l2) = (conta f l1 + conta f l2)%nat.
Proof. unfold conta. now rewrite filter_app, length_app. Qed.

Lemma conta_selects f (sels : list Chamada) :
  (forall c, ehSelect c = true -> f c = false) ->
  Forall (fun c => ehSelect c = true) sels -> conta f sels = 0%nat.
Proof.
  intros Hf H. unfold conta. induction H as [|c r Hc Hr IH]; [reflexivity|].
  cbn. now rewrite (Hf c Hc).
Qed.

(** The calls logged by a load that follows the calls [antes]. *)
Lemma chamadas_depois_de (w w1 : @Mundo S) antes :
  chamadas w1 = (chamadas w ++ antes)%list ->
  exists sels,
    novasChamadas w (snd (carregarDadosFinanceiros rt userId w1))
    = (antes ++ sels)%list
    /\ Forall (fun c => ehSelect c = true) sels.
Proof.
  intros H. destruct (carregar_chamadas rt userId w1) as [sels [E F]].
  exists sels. split; [|exact F].
  apply novasChamadas_app. rewrite E, H. now rewrite app_assoc.
Qed.

(** The calls logged by a load that follows one call. *)
Lemma chamadas_da_recarga (w : @Mundo S) c s :
  novasChamadas w
    (snd (carregarDadosFinanceiros rt userId (aposChamada w c s)))
  = c :: (if verdadeiro userId
          then if fonteRejeitada s then selectsDaFonte else selectsDaCarga
          else []).
Proof.
  apply novasChamadas_app. rewrite chamadas_da_carga.
  cbn [aposChamada chamadas loja]. now rewrite <- app_assoc.
Qed.

(** C2: in the creation, when the first insert reports that the relation
    is missing, the provisioning succeeds and the insert tried again
    answers with the error [e3], the operation throws, but what it throws
    is a new error with the fixed message of [mensagemSemTabela], which is
    not the error of the insert tried again. *)
Theorem C2_erro_da_reinsercao_trocado (w : @Mundo S) nova d1 e1 d2 d3 e3 :
  let l := linhaDe userId nova in
  let w1 := aposChamada w (ChInsert l) (snd (insert_transacao l (loja w))) in
  let w2 := aposChamada w1 (ChInvoke "create-transacoes")
              (snd (invoke_create_transacoes (loja w1))) in
  verdadeiro userId = true ->
  fst (insert_transacao l (loja w)) = Resolvida d1 (Some e1) ->
  tabelaAusente e1 = true ->
  fst (invoke_create_transacoes (loja w1)) = Resolvida d2 None ->
  fst (insert_transacao l (loja w2)) = Resolvida d3 (Some e3) ->
  fst (salvarTransacao rt userId nova w) = Lanca (NovoErro mensagemSemTabela)
  /\ NovoErro mensagemSemTabela <> DaLoja e3.
Proof.
  intros l w1 w2 Hu H1 Ht H2 H3.
  rewrite salvar_passos by exact Hu. cbv zeta.
  fold l. rewrite H1, Ht. fold w1. rewrite H2. cbn [erroDe].
  fold w2. rewrite H3. cbn [erroDe fst]. split; [reflexivity|discriminate].
Qed.

(** C3 (amended): the edit is one update by id and the deletion one delete
    by id. When that call fails (its promise is rejected or its answer
    carries an error) the error is thrown to the caller, nothing else is
    called and the ledger is not touched: no load follows. When it succeeds
    and there is a user, the full load follows: the selects of the three
    sources and, unless one of their promises is rejected, the select of the
    custom transactions, with the ledger the load ends with. When it
    succeeds and there is no user, the operation returns, nothing else is
    called and the ledger is not touched. *)
Theorem C3_edicao_e_exclusao (w : @Mundo S) onde editada :
  let u := update_transacao onde editada (loja w) in
  let x := delete_transacao onde (loja w) in
  let wu := aposChamada w (ChUpdate onde editada) (snd u) in
  let wx := aposChamada w (ChDelete onde) (snd x) in
  let selects (s : S) :=
    if verdadeiro userId
    then if fonteRejeitada s then selectsDaFonte else selectsDaCarga
    else [] in
  editarTransacao rt userId onde editada w
  = match erroDe (fst u) with
    | Some e => (Lanca e, wu)
    | None => carregarDadosFinanceiros rt userId wu
    end
  /\ excluirTransacao rt userId onde w
     = match erroDe (fst x) with
       | Some e => (Lanca e, wx)
       | None => carregarDadosFinanceiros rt userId wx
       end
  /\ novasChamadas w (snd (editarTransacao rt userId onde editada w))
     = ChUpdate onde editada
       :: match erroDe (fst u) with
          | Some _ => []
          | None => selects (snd u)
          end
  /\ novasChamadas w (snd (excluirTransacao rt userId onde w))
     = ChDelete onde
       :: match erroDe (fst x) with
          | Some _ => []
          | None => selects (snd x)
          end
  /\ (erroDe (fst u) <> None \/ verdadeiro userId = false ->
      dados (snd (editarTransacao rt userId onde editada w)) = dados w)
  /\ (erroDe (fst x) <> None \/ verdadeiro userId = false ->
      dados (snd (excluirTransacao rt userId onde w)) = dados w)
  /\ (verdadeiro userId = false ->
      (erroDe (fst u) = None ->
       editarTransacao rt userId onde editada w = (Retorna tt, wu))
      /\ (erroDe (fst x) = None ->
          excluirTransacao rt userId onde w = (Retorna tt, wx))).
Proof.
  intros u x wu wx selects. subst selects.
  split; [apply editar_passos|]. split; [apply excluir_passos|].
  rewrite editar_passos, excluir_passos. cbv zeta. fold u x wu wx.
  split; [|split; [|split; [|split]]].
  - destruct (erroDe (fst u)) as [e|].
    + now apply novasChamadas_app.
    + apply chamadas_da_recarga.
  - destruct (erroDe (fst x)) as [e|].
    + now apply novasChamadas_app.
    + apply chamadas_da_recarga.
  - intros H. destruct (erroDe (fst u)) as [e|]; [reflexivity|].
    destruct H as [H|H]; [now contradiction H|].
    now rewrite carregar_sem_usuario.
  - intros H. destruct (erroDe (fst x)) as [e|]; [reflexivity|].
    destruct H as [H|H]; [now contradiction H|].
    now rewrite carregar_sem_usuario.
  - intros Hu. split; intros ->; now apply carregar_sem_usuario.
Qed.

Lemma conta_invoke_selects sels :
  Forall (fun c => ehSelect c = true) sels -> conta ehInvoke sels = 0%nat.
Proof. apply conta_selects. now intros []. Qed.

Lemma conta_insert_selects sels :
  Forall (fun c => ehSelect c = true) sels -> conta ehInsert sels = 0%nat.
Proof. apply conta_selects. now intros []. Qed.

(** The operation stopped before any load: no select follows the calls
    listed. *)
Ltac sem_selects :=
  exists []; split; [constructor|];
  apply novasChamadas_app; cbn; repeat rewrite <- app_assoc;
  try reflexivity.

(** The calls of one creation: nothing without a user; else the insert,
    then, only when it reported the missing relation, the provisioning,
    then, only when the provisioning did not fail, the insert once more;
    and selects after that. *)
Lemma salvar_chamadas (w : @Mundo S) nova :
  let l := linhaDe userId nova in
  let w1 := aposChamada w (ChInsert l) (snd (insert_transacao l (loja w))) in
  exists sels,
    Forall (fun c => ehSelect c = true) sels
    /\ novasChamadas w (snd (salvarTransacao rt userId nova w))
       = if verdadeiro userId then
           match fst (insert_transacao l (loja w)) with
           | Resolvida _ (Some e) =>
               if tabelaAusente e then
                 match erroDe (fst (invoke_create_transacoes (loja w1))) with
                 | Some _ => [ChInsert l; ChInvoke "create-transacoes"]
                 | None => ChInsert l :: ChInvoke "create-transacoes"
                             :: ChInsert l :: sels
                 end
               else [ChInsert l]
           | _ => ChInsert l :: sels
           end
         else [].
Proof.
  intros l w1. destruct (verdadeiro userId) eqn:Hu.
  2:{ rewrite salvar_sem_usuario by exact Hu. sem_selects.
      now rewrite app_nil_r. }
  rewrite salvar_passos by exact Hu. cbv zeta. fold l. fold w1.
  destruct (fst (insert_transacao l (loja w))) as [x|d1 [e1|]].
  - sem_selects.
  - destruct (tabelaAusente e1); [|sem_selects].
    set (w2 := aposChamada w1 _ _).
    destruct (erroDe (fst (invoke_create_transacoes (loja w1)))) as [e2|];
      [sem_selects|].
    set (w3 := aposChamada w2 _ _).
    destruct (erroDe (fst (insert_transacao l (loja w2)))) as [e3|];
      [sem_selects|].
    destruct (chamadas_depois_de w w3
                [ChInsert l; ChInvoke "create-transacoes"; ChInsert l])
      as [sels [E F]].
    { cbn. now repeat rewrite <- app_assoc. }
    exists sels. split; [exact F|exact E].
  - destruct (chamadas_depois_de w w1 [ChInsert l] eq_refl)
      as [sels [E F]].
    exists sels. split; [exact F|exact E].
Qed.
(** C4 (amended): one call of the creation invokes the provisioning at
    most once and issues the insert at most twice. When the first insert
    reports the missing relation, the provisioning is invoked exactly
    once; the insert is issued once more exactly when that provisioning
    did not fail, and not at all when it failed. Whatever the insert
    tried again answers, the missing relation included, the provisioning
    is not invoked again. *)
Theorem C4_provisao_e_reinsercao (w : @Mundo S) nova :
  let l := linhaDe userId nova in
  let w1 := aposChamada w (ChInsert l) (snd (insert_transacao l (loja w))) in
  let novas := novasChamadas w (snd (salvarTransacao rt userId nova w)) in
  (conta ehInvoke novas <= 1)%nat
  /\ (conta ehInsert novas <= 2)%nat
  /\ (forall d e,
        verdadeiro userId = true ->
        fst (insert_transacao l (loja w)) = Resolvida d (Some e) ->
        tabelaAusente e = true ->
        conta ehInvoke novas = 1%nat
        /\ conta ehInsert novas
           = match erroDe (fst (invoke_create_transacoes (loja w1))) with
             | Some _ => 1%nat
             | None => 2%nat
             end).
Proof.
  intros l w1 novas.
  destruct (salvar_chamadas w nova) as [sels [F E]]. cbv zeta in E.
  fold l w1 novas in E.
  pose proof (conta_invoke_selects sels F) as Hv.
  pose proof (conta_insert_selects sels F) as Hi.
  unfold conta in Hv, Hi |- *.
  destruct (verdadeiro userId).
  2:{ rewrite E. cbn. repeat split; try lia; discriminate. }
  destruct (fst (insert_transacao l (loja w))) as [x|d1 [e1|]].
  - rewrite E. cbn. rewrite Hv, Hi.
    repeat split; try lia; discriminate.
  - destruct (tabelaAusente e1) eqn:Ht.
    + destruct (erroDe (fst (invoke_create_transacoes (loja w1))))
        as [e2|]; rewrite E; cbn; rewrite ?Hv, ?Hi;
        repeat split; lia.
    + rewrite E. cbn. repeat split; try lia; congruence.
  - rewrite E. cbn. rewrite Hv, Hi.
    repeat split; try lia; discriminate.
Qed.
End Escritas.

(** ** Records without a number, descriptions, directions *)
Section Registros.
Variable rt : Runtime.
Context {S : Type} {loja_ops : Loja S}.



(** A load whose second loop meets a row it cannot pass ends with the
    error message over the previous ledger. *)
Lemma carga_com_linha_sem_texto userId (w : @Mundo S) :
  verdadeiro userId = true ->
  linhasPassam (loja w) = false ->
  dados (snd (carregarDadosFinanceiros rt userId w)) = comErro (dados w).
Proof.
  intros Hu Hl. rewrite dados_da_carga by exact Hu.
  destruct (linhasDe (resClientes (loja w))) as [c|];
    [destruct (linhasDe (resPlanos (loja w))) as [p|];
     [destruct (linhasDe (resProdutos (loja w))) as [d|]|]|];
    try reflexivity.
  unfold agregar.
  destruct (customizadas_nao_passam rt _ (derivadas rt (lidas w) c p d) Hl)
    as [m Hm].
  now rewrite Hm.
Qed.

(** C6: a plan or a product whose price does not parse to a number, and a
    custom transaction whose amount does not parse, leave the aggregation
    as it is without them: what it gives (both totals and the entries, or
    what another row makes it throw) is what it gives for the same load
    with the customer's reference to that plan or product removed, or with
    that row removed. "R$ abc" is such a price. No entry of an aggregate
    has an amount that is not a number, and the ledger made of an aggregate
    carries no error: a load with a user whose three source fetches succeed
    returns without throwing and, when the aggregation returns, ends with
    that ledger. *)
Theorem C6_valor_ilegivel :
  (forall n cs1 c cs2 ps ds ts plano,
      Map_get (planosMapDe ps) (cliente_plano c) = Some plano ->
      isNaN (valorDoPreco (plano_valor plano)) = true ->
      agregar rt n (cs1 ++ c :: cs2) ps ds ts
      = agregar rt n (cs1 ++ semPlano c :: cs2) ps ds ts)
  /\ (forall n cs1 c cs2 ps ds ts produto,
        Map_get (produtosMapDe ds) (cliente_produto c) = Some produto ->
        isNaN (valorDoPreco (produto_valor produto)) = true ->
        agregar rt n (cs1 ++ c :: cs2) ps ds ts
        = agregar rt n (cs1 ++ semProduto c :: cs2) ps ds ts)
  /\ (forall n cs ps ds ts1 t ts2,
        isNaN (parseFloatBruto (linha_valor t)) = true ->
        agregar rt n cs ps ds (ts1 ++ t :: ts2)
        = agregar rt n cs ps ds (ts1 ++ ts2))
  /\ isNaN (valorDoPreco "R$ abc") = true
  /\ (forall n cs ps ds ts a,
        agregar rt n cs ps ds ts = Retorna a ->
        Forall comNumero (transacoes (dadosDe rt a))
        /\ error (dadosDe rt a) = None)
  /\ (forall userId (w : @Mundo S) c p d,
        verdadeiro userId = true ->
        linhasDe (resClientes (loja w)) = Some c ->
        linhasDe (resPlanos (loja w)) = Some p ->
        linhasDe (resProdutos (loja w)) = Some d ->
        carregarDadosFinanceiros rt userId w
        = (Retorna tt,
           mundoCarregado rt w c p d)
        /\ forall a,
             agregar rt (lidas w) c p d
               (customizadasDe (resTransacoes (loja w))) = Retorna a ->
             dados (mundoCarregado rt w c p d) = dadosDe rt a).
Proof.
  split; [|split; [|split; [|split; [reflexivity|split]]]].
  - intros n cs1 c cs2 ps ds ts plano Hg Hn. unfold agregar, derivadas.
    rewrite !fold_left_app. cbn [fold_left].
    now rewrite (lancaCliente_semPlano rt _ _ _ c plano Hg Hn).
  - intros n cs1 c cs2 ps ds ts produto Hg Hn. unfold agregar, derivadas.
    rewrite !fold_left_app. cbn [fold_left].
    now rewrite (lancaCliente_semProduto rt _ _ _ c produto Hg Hn).
  - intros n cs ps ds ts1 t ts2 Hn. unfold agregar.
    rewrite !paraCada_app. cbn [paraCada].
    destruct (paraCada (lancaCustomizada rt) ts1 _) as [b|x]; [|reflexivity].
    now rewrite (lancaCustomizada_ilegivel rt _ t Hn).
  - intros n cs ps ds ts a Ha. split; [|reflexivity].
    cbn [dadosDe transacoes]. rewrite sort_Permutation.
    exact (comNumero_agregar rt _ _ _ _ _ _ Ha).
  - intros userId w c p d Hu Hc Hp Hd.
    rewrite carregar_com_usuario by exact Hu. rewrite Hc, Hp, Hd.
    split; [reflexivity|]. intros a Ha.
    rewrite dados_mundoCarregado. now rewrite Ha.
Qed.


End Registros.

(** ** The order of the ledger *)
Section Livro.
Variable rt : Runtime.
Context {S : Type} {loja_ops : Loja S}.
Variable userId : option string.

(** The entries a load lists, when its three sources gave rows and its
    second loop passed every row: the entries built, sorted. *)
Lemma livro_da_carga (w : @Mundo S) c p d :
  verdadeiro userId = true ->
  linhasDe (resClientes (loja w)) = Some c ->
  linhasDe (resPlanos (loja w)) = Some p ->
  linhasDe (resProdutos (loja w)) = Some d ->
  linhasPassam (loja w) = true ->
  transacoes (dados (snd (carregarDadosFinanceiros rt userId w)))
  = sort (porDataDecrescente rt)
      (acumuladas (derivadas rt (lidas w) c p d)
       ++ entradasCustomizadas rt
            (customizadasDe (resTransacoes (loja w)))).
Proof.
  intros Hu Hc Hp Hd Hl. rewrite dados_da_carga by exact Hu.
  rewrite Hc, Hp, Hd. unfold agregar.
  destruct (customizadas_passam rt _ (derivadas rt (lidas w) c p d) Hl)
    as [a Ha].
  rewrite Ha. cbn [dadosDe transacoes].
  now rewrite (acumuladas_customizadas rt _ _ _ Ha).
Qed.

(** With a user, the three sources fetched and every custom row passed,
    the entries of the ledger are the derived entries and the custom ones,
    rearranged; when the [Date] constructor reads every display string as a
    date, they are in descending order of the time read, and entries of one
    time keep the order they were built in. *)
Lemma livro_ordenado (w : @Mundo S) c p d :
  verdadeiro userId = true ->
  linhasDe (resClientes (loja w)) = Some c ->
  linhasDe (resPlanos (loja w)) = Some p ->
  linhasDe (resProdutos (loja w)) = Some d ->
  linhasPassam (loja w) = true ->
  let construidas :=
    (acumuladas (derivadas rt (lidas w) c p d)
     ++ entradasCustomizadas rt
          (customizadasDe (resTransacoes (loja w))))%list in
  let livro :=
    transacoes (dados (snd (carregarDadosFinanceiros rt userId w))) in
  Permutation livro construidas
  /\ (Forall (fun e => legivel rt e = true) construidas ->
      StronglySorted (maisRecenteAntes rt) livro
      /\ forall k, filter (fun e => tempoDe rt e =? k) livro
                   = filter (fun e => tempoDe rt e =? k) construidas).
Proof.
  intros Hu Hc Hp Hd Hl construidas livro. subst construidas livro.
  rewrite (livro_da_carga w c p d Hu Hc Hp Hd Hl).
  split; [apply sort_Permutation|].
  intros H. split; [now apply sort_ordenada|].
  intros k. now apply sort_estavel.
Qed.
End Livro.

(** *** The claims above on the scripted store *)

Import Exemplos.

Lemma C2_witness :
  fst (salvarTransacao Navegador.runtime usuario novaMensalidade
         (mundoInicial lojaReinsercaoRecusada))
  = Lanca (NovoErro mensagemSemTabela)
  /\ NovoErro mensagemSemTabela <> DaLoja erroPermissao.
Proof.
  apply (C2_erro_da_reinsercao_trocado Navegador.runtime usuario
           (mundoInicial lojaReinsercaoRecusada) novaMensalidade
           None erroSemTabela None None erroPermissao);
    reflexivity.
Defined.

(** C3, as stated, fails: the update is refused, the error is thrown, and
    no load follows: the update is the only call logged and the ledger is
    the one before the call, still marked as loading. *)
Lemma C3_contraexemplo :
  let w := mundoInicial lojaSomenteLeitura in
  let fim := editarTransacao Navegador.runtime usuario "t1" novaMensalidade w in
  fst (update_transacao "t1" novaMensalidade (loja w)) = recusado erroPermissao
  /\ fst fim = Lanca (DaLoja erroPermissao)
  /\ chamadas (snd fim) = [ChUpdate "t1" novaMensalidade]
  /\ conta ehSelect (chamadas (snd fim)) = 0%nat
  /\ dados (snd fim) = dados w
  /\ dados (snd (carregarDadosFinanceiros Navegador.runtime usuario (snd fim)))
     <> dados w.
Proof.
  cbv zeta. repeat split; try reflexivity.
  vm_compute. discriminate.
Qed.

(** The edit on a store in working order: with a user the update is
    followed by the four selects and the ledger is the one of the rows
    fetched; without a user the update is the only call and the ledger stays
    as it was. *)
Lemma C3_witness :
  let w := mundoCarregadoAntes lojaEmOrdem in
  let com := snd (editarTransacao Navegador.runtime usuario "t1"
                    novaMensalidade w) in
  let sem := snd (editarTransacao Navegador.runtime None "t1"
                    novaMensalidade w) in
  novasChamadas w com
  = [ChUpdate "t1" novaMensalidade; ChSelect "clientes"; ChSelect "planos";
     ChSelect "produtos"; ChSelect "transacoes"]
  /\ entradas (dados com) = 79.9%float
  /\ novasChamadas w sem = [ChUpdate "t1" novaMensalidade]
  /\ dados sem = dados w
  /\ entradas (dados sem) = 100%float.
Proof.
  cbv zeta.
  destruct (C3_edicao_e_exclusao Navegador.runtime (loja_ops := lojaRoteiro)
              usuario (mundoCarregadoAntes lojaEmOrdem) "t1" novaMensalidade)
    as (_ & _ & Hc & _).
  destruct (C3_edicao_e_exclusao Navegador.runtime (loja_ops := lojaRoteiro)
              None (mundoCarregadoAntes lojaEmOrdem) "t1" novaMensalidade)
    as (_ & _ & Hs & _ & Hd & _).
  split; [exact Hc|]. split; [vm_compute; reflexivity|].
  split; [exact Hs|]. split; [apply Hd; now right|reflexivity].
Defined.

(** C4, as stated, fails: the first insert reports the missing relation,
    the provisioning fails, and no insert is tried again: the calls are the
    one insert and the one provisioning. *)
Lemma C4_contraexemplo :
  let w := mundoInicial lojaSemProvisao in
  let l := linhaDe usuario novaMensalidade in
  let fim := salvarTransacao Navegador.runtime usuario novaMensalidade w in
  fst (insert_transacao l (loja w)) = recusado erroSemTabela
  /\ tabelaAusente erroSemTabela = true
  /\ chamadas (snd fim) = [ChInsert l; ChInvoke "create-transacoes"]
  /\ conta ehInvoke (chamadas (snd fim)) = 1%nat
  /\ conta ehInsert (chamadas (snd fim)) = 1%nat.
Proof.
  cbv zeta. repeat split; reflexivity.
Qed.

Lemma C4_witness :
  let w := mundoInicial lojaSemTabelaDuasVezes in
  let novas :=
    novasChamadas w
      (snd (salvarTransacao Navegador.runtime usuario novaMensalidade w)) in
  conta ehInvoke novas = 1%nat /\ conta ehInsert novas = 2%nat.
Proof.
  cbv zeta.
  destruct (C4_provisao_e_reinsercao Navegador.runtime usuario
              (mundoInicial lojaSemTabelaDuasVezes) novaMensalidade)
    as [_ [_ H]].
  exact (H None erroSemTabela eq_refl eq_refl eq_refl).
Defined.

(** C5, as stated, fails: the select of the plans is refused, and the load
    ends with the error message and the three totals of the ledger it
    started from, 100, 40 and 60, which no row fetched accounts for; the
    same load of the same store started from the empty ledger ends with 0,
    0 and 0. *)
Lemma C5_contraexemplo :
  let antes := mundoCarregadoAntes lojaSemPlanos in
  let novo := mundoInicial lojaSemPlanos in
  let fim := snd (carregarDadosFinanceiros Navegador.runtime usuario antes) in
  let outro := snd (carregarDadosFinanceiros Navegador.runtime usuario novo) in
  loja antes = loja novo
  /\ error (dados fim) = Some "Erro ao carregar dados financeiros"
  /\ error (dados outro) = Some "Erro ao carregar dados financeiros"
  /\ entradas (dados fim) = 100%float
  /\ saidas (dados fim) = 40%float
  /\ lucros (dados fim) = 60%float
  /\ entradas (dados outro) = 0%float
  /\ saidas (dados outro) = 0%float
  /\ lucros (dados outro) = 0%float.
Proof.
  cbv zeta. repeat split; reflexivity.
Qed.

(** A load that succeeds over the ledger of 100, 40 and 60: the totals are
    those of the three entries built, 29.90 and 50 in, 10 out. *)
Lemma C5_witness :
  let w := mundoCarregadoAntes lojaEmOrdem in
  let fim := snd (carregarDadosFinanceiros Navegador.runtime usuario w) in
  lucroCoerente (dados fim)
  /\ entradas (dados fim) = 79.9%float
  /\ saidas (dados fim) = 10%float
  /\ lucros (dados fim) = 69.9%float
  /\ map id (transacoes (dados fim)) = ["t1"; "entrada-1"; "saida-1"]
  /\ (forall anterior : Dados,
        dados (snd (carregarDadosFinanceiros Navegador.runtime usuario
                      (comDados w anterior)))
        = dados fim).
Proof.
  cbv zeta.
  destruct (C5_lucro_e_recalculo Navegador.runtime (loja_ops := lojaRoteiro)
              usuario (mundoCarregadoAntes lojaEmOrdem) eq_refl)
    as (H1 & H2 & _).
  destruct (H2 eq_refl eq_refl) as (c & p & d & a & _ & _ & _ & _ & _ & _ & _
                                   & _ & _ & Hi).
  split; [exact H1|].
  do 4 (split; [vm_compute; reflexivity|]).
  exact Hi.
Defined.

Lemma C8_witness :
  let w := mundoCarregadoAntes lojaSemPlanos in
  let fim := carregarDadosFinanceiros Navegador.runtime usuario w in
  fst fim = Retorna tt
  /\ error (dados (snd fim)) = Some "Erro ao carregar dados financeiros"
  /\ loading (dados (snd fim)) = false
  /\ entradas (dados (snd fim)) = entradas (dados w)
  /\ saidas (dados (snd fim)) = saidas (dados w)
  /\ lucros (dados (snd fim)) = lucros (dados w)
  /\ transacoes (dados (snd fim)) = transacoes (dados w).
Proof.
  apply (C8_falha_na_fonte Navegador.runtime usuario
           (mundoCarregadoAntes lojaSemPlanos)); reflexivity.
Defined.

(** The relation of the custom transactions is missing: over the ledger of
    100, 40 and 60 the load ends with the plan of 29.90 in and the product
    of 10 out, and no error. *)
Lemma C9_witness :
  let w := mundoCarregadoAntes lojaSemProvisao in
  let fim := carregarDadosFinanceiros Navegador.runtime usuario w in
  fst fim = Retorna tt
  /\ error (dados (snd fim)) = None
  /\ loading (dados (snd fim)) = false
  /\ entradas (dados (snd fim)) = 29.9%float
  /\ saidas (dados (snd fim)) = 10%float
  /\ lucros (dados (snd fim)) = 19.9%float
  /\ map id (transacoes (dados (snd fim))) = ["entrada-1"; "saida-1"]
  /\ map valor (transacoes (dados (snd fim))) = [29.9%float; 10%float].
Proof.
  cbv zeta.
  destruct (C9_falha_nas_customizadas Navegador.runtime
              (loja_ops := lojaRoteiro) usuario
              (mundoCarregadoAntes lojaSemProvisao)
              [clienteDe "1" "2024-01-05T10:00:00Z" (Some "p1") (Some "d1")]
              [planoMensal] [produtoCaixa]
              eq_refl eq_refl eq_refl eq_refl eq_refl eq_refl)
    as (H1 & _ & _ & _ & H5 & H6 & _).
  split; [exact H1|]. split; [exact H5|]. split; [exact H6|].
  repeat split; vm_compute; reflexivity.
Defined.

(** C1: in a browser the ledger is not always in descending order of the
    display timestamp. The display string is written day first and the
    comparison reads it back with the [Date] constructor, month first. For
    three customers created on 13 January 2024 at 10:00, 09:00 and 11:00 no
    display string is read as a date and the entries stay in the order they
    were built in; for one created on 2 January and one on 1 February the
    earlier comes first. On 5 January the three entries do come out as
    11:00, 10:00, 09:00. *)
Theorem C1_ordem_no_navegador :
  map data (transacoes (livroDe (lojaDosClientes (noDia "2024-01-13"))))
  = ["13/01/2024, 10:00:00"; "13/01/2024, 09:00:00"; "13/01/2024, 11:00:00"]
  /\ map (fun e => Navegador.Date_parse (data e))
         (transacoes (livroDe (lojaDosClientes (noDia "2024-01-13"))))
     = [None; None; None]
  /\ error (livroDe (lojaDosClientes (noDia "2024-01-13"))) = None
  /\ map data (transacoes (livroDe (lojaDosClientes janeiroEFevereiro)))
     = ["02/01/2024, 10:00:00"; "01/02/2024, 10:00:00"]
  /\ map data (transacoes (livroDe (lojaDosClientes (noDia "2024-01-05"))))
     = ["05/01/2024, 11:00:00"; "05/01/2024, 10:00:00"; "05/01/2024, 09:00:00"].
Proof.
  repeat split; vm_compute; reflexivity.
Qed.

Lemma livro_ordenado_witness :
  let w := mundoInicial (lojaDosClientes (noDia "2024-01-05")) in
  let livro :=
    transacoes (dados (snd (carregarDadosFinanceiros Navegador.runtime
                              usuario w))) in
  StronglySorted (maisRecenteAntes Navegador.runtime) livro
  /\ map id livro = ["entrada-3"; "entrada-1"; "entrada-2"].
Proof.
  cbv zeta.
  destruct (livro_ordenado Navegador.runtime (loja_ops := lojaRoteiro) usuario
              (mundoInicial (lojaDosClientes (noDia "2024-01-05")))
              (clientesCriadosEm (noDia "2024-01-05")) [planoMensal] []
              eq_refl eq_refl eq_refl eq_refl eq_refl) as (_ & H).
  split; [|reflexivity].
  apply H. repeat constructor.
Defined.

Lemma C6_witness :
  agregar Navegador.runtime 0
    ([] ++ clienteDoPlanoIlegivel :: [clienteDoProdutoIlegivel])
    [planoMensal; planoIlegivel] [produtoCaixa; produtoIlegivel]
    [linhaSemValor; linhaAlice]
  = agregar Navegador.runtime 0
      ([] ++ semPlano clienteDoPlanoIlegivel :: [clienteDoProdutoIlegivel])
      [planoMensal; planoIlegivel] [produtoCaixa; produtoIlegivel]
      [linhaSemValor; linhaAlice].
Proof.
  exact (proj1 (C6_valor_ilegivel Navegador.runtime (S := Roteiro)) 0%nat []
           clienteDoPlanoIlegivel [clienteDoProdutoIlegivel]
           [planoMensal; planoIlegivel] [produtoCaixa; produtoIlegivel]
           [linhaSemValor; linhaAlice] planoIlegivel eq_refl eq_refl).
Defined.

(** The entries of that aggregate: the product of the first customer, the
    plan of the second and the one row with an amount. *)
Example ilegiveis_fora_do_livro :
  exists a,
    agregar Navegador.runtime 0
      [clienteDoPlanoIlegivel; clienteDoProdutoIlegivel]
      [planoMensal; planoIlegivel] [produtoCaixa; produtoIlegivel]
      [linhaSemValor; linhaAlice] = Retorna a
    /\ map id (acumuladas a) = ["saida-1"; "entrada-2"; "t1"]
    /\ totalEntradas a = 79.9%float
    /\ totalSaidas a = 10%float.
Proof. eexists. split; [reflexivity|]. repeat split; vm_compute; reflexivity. Qed.





(** ** The hook at work *)

Example carga_em_ordem :
  let d := livroDe lojaEmOrdem in
  entradas d = 79.9%float /\ saidas d = 10%float /\ lucros d = 69.9%float
  /\ map id (transacoes d) = ["t1"; "entrada-1"; "saida-1"]
  /\ map data (transacoes d)
     = ["05/01/2024, 12:00:00"; "05/01/2024, 10:00:00";
        "05/01/2024, 10:00:00"]
  /\ loading d = false /\ error d = None.
Proof. cbv zeta. repeat split; vm_compute; reflexivity. Qed.

Example carga_fora_do_ar :
  let fim := carregarDadosFinanceiros Navegador.runtime usuario
               (mundoCarregadoAntes lojaForaDoAr) in
  fst fim = Retorna tt
  /\ chamadas (snd fim) = selectsDaFonte
  /\ dados (snd fim) = comErro (dados (mundoCarregadoAntes lojaForaDoAr)).
Proof. cbv zeta. repeat split; reflexivity. Qed.

Example carga_com_linha_sem_descricao :
  let fim := carregarDadosFinanceiros Navegador.runtime usuario
               (mundoCarregadoAntes lojaComLinhaSemDescricao) in
  fst fim = Retorna tt
  /\ chamadas (snd fim) = selectsDaCarga
  /\ dados (snd fim)
     = comErro (dados (mundoCarregadoAntes lojaComLinhaSemDescricao)).
Proof. cbv zeta. repeat split; reflexivity. Qed.

Example salvar_cria_a_tabela :
  let l := linhaDe usuario novaMensalidade in
  let fim := salvarTransacao Navegador.runtime usuario novaMensalidade
               (mundoInicial lojaSemTabelaUmaVez) in
  fst fim = Retorna tt
  /\ chamadas (snd fim)
     = [ChInsert l; ChInvoke "create-transacoes"; ChInsert l;
        ChSelect "clientes"; ChSelect "planos"; ChSelect "produtos";
        ChSelect "transacoes"]
  /\ error (dados (snd fim)) = None.
Proof. cbv zeta. repeat split; reflexivity. Qed.

Example salvar_sem_usuario_lanca :
  salvarTransacao Navegador.runtime None novaMensalidade
    (mundoInicial lojaEmOrdem)
  = (Lanca (NovoErro "Usuário não autenticado"), mundoInicial lojaEmOrdem).
Proof. reflexivity. Qed.

(** ** The runtime at work *)

Example parseFloat_preco : valorDoPreco "R$ 1.234,56" = 1.234%float.
Proof. vm_compute. reflexivity. Qed.

Example parseFloat_decimal : parseFloat "29.90" = 29.9%float.
Proof. vm_compute. reflexivity. Qed.

Example parseFloat_prefixo : parseFloat "  -1.5e3xyz" = (-1500)%float.
Proof. vm_compute. reflexivity. Qed.

Example parseFloat_sem_expoente : parseFloat "12e" = 12%float.
Proof. vm_compute. reflexivity. Qed.

Example parseFloat_ponto : isNaN (parseFloat ".") = true.
Proof. vm_compute. reflexivity. Qed.

Example parseFloat_null : isNaN (parseFloatBruto Nulo) = true.
Proof. vm_compute. reflexivity. Qed.

Example soma_binaria :
  PrimFloat.add (parseFloat "0.1") (parseFloat "0.2")
  = 0.30000000000000004%float.
Proof. vm_compute. reflexivity. Qed.

Example split_vazio : split "010" "" = [""].
Proof. reflexivity. Qed.

Example navegador_escreve :
  Navegador.toLocaleString (Navegador.Date_parse "2024-02-29T23:59:59Z")
  = "29/02/2024, 23:59:59".
Proof. vm_compute. reflexivity. Qed.

Example navegador_le_o_mes_primeiro :
  Navegador.Date_parse "05/01/2024, 10:00:00"
  = Navegador.Date_parse "2024-05-01T10:00:00Z"
  /\ Navegador.Date_parse "13/01/2024, 10:00:00" = None.
Proof. split; vm_compute; reflexivity. Qed.

Example navegador_le_o_que_a_loja_escreve :
  Navegador.Date_parse "2024-01-05T10:00:00.123456+00:00"
  = Some 1704448800123
  /\ Navegador.Date_parse "2024-01-05T07:00:00-03:00"
     = Navegador.Date_parse "2024-01-05T10:00:00Z".
Proof. split; vm_compute; reflexivity. Qed.

End Propriedades.

(* ================================================================== *)
(** * More of what the hook does *)
(* ================================================================== *)

Module Cobertura.
Import JS Financeiro Propriedades.

(** ** Totals and entries of an aggregate *)
Section Totais.
Variable rt : Runtime.

(** The totals of an aggregate are the sums of the amounts of its entries,
    added in the order the entries were built in: the inflow over the
    entries whose direction is "entrada", the outflow over all the others;
    the net profit of the ledger is the difference of these two sums. *)
Theorem totais_sao_somas n cs ps ds ts a :
  agregar rt n cs ps ds ts = Retorna a ->
  entradas (dadosDe rt a) = somaDas deEntrada (acumuladas a)
  /\ saidas (dadosDe rt a) = somaDas deSaida (acumuladas a)
  /\ lucros (dadosDe rt a)
     = PrimFloat.sub (somaDas deEntrada (acumuladas a))
                     (somaDas deSaida (acumuladas a))
  /\ Permutation (transacoes (dadosDe rt a)) (acumuladas a).
Proof.
  intros Ha. destruct (somado_agregar rt _ _ _ _ _ _ Ha) as [He Hs].
  cbn [dadosDe entradas saidas lucros transacoes].
  rewrite <- He, <- Hs. repeat split. apply sort_Permutation.
Qed.

Lemma length_lancaPlano pm c a :
  (List.length (acumuladas (lancaPlano rt pm c a))
   <= List.length (acumuladas a) + 1)%nat.
Proof.
  unfold lancaPlano.
  destruct (verdadeiro (cliente_plano c)); [|lia].
  destruct (Map_get pm (cliente_plano c)) as [plano|]; [|lia].
  destruct (isNaN (valorDoPreco (plano_valor plano))); [lia|].
  destruct (dataDoCliente rt c (leituras a)) as [d n]. cbn [acumuladas].
  rewrite length_app. cbn. lia.
Qed.

Lemma length_lancaProduto dm c a :
  (List.length (acumuladas (lancaProduto rt dm c a))
   <= List.length (acumuladas a) + 1)%nat.
Proof.
  unfold lancaProduto.
  destruct (verdadeiro (cliente_produto c)); [|lia].
  destruct (Map_get dm (cliente_produto c)) as [produto|]; [|lia].
  destruct (isNaN (valorDoPreco (produto_valor produto))); [lia|].
  destruct (dataDoCliente rt c (leituras a)) as [d n]. cbn [acumuladas].
  rewrite length_app. cbn. lia.
Qed.

Lemma length_clientes pm dm cs a :
  (List.length (acumuladas (fold_left (lancaCliente rt pm dm) cs a))
   <= List.length (acumuladas a) + 2 * List.length cs)%nat.
Proof.
  revert a. induction cs as [|c r IH]; intros a; cbn [fold_left List.length];
    [lia|].
  specialize (IH (lancaCliente rt pm dm a c)). unfold lancaCliente in *.
  pose proof (length_lancaProduto dm c (lancaPlano rt pm c a)).
  pose proof (length_lancaPlano pm c a). lia.
Qed.

Lemma length_entradasCustomizadas ts :
  forallb passa ts = true ->
  List.length (entradasCustomizadas rt ts) = List.length (filter comValor ts).
Proof.
  induction ts as [|t r IH]; [reflexivity|]. cbn [forallb]. intros H.
  apply andb_true_iff in H as [Ht Hr]. specialize (IH Hr).
  unfold entradasCustomizadas, comValor, passa, entradaCustomizada in *.
  cbn [flat_map filter].
  destruct (isNaN (parseFloatBruto (linha_valor t))); cbn; [exact IH|].
  cbn in Ht. destruct (linha_descricao t); try discriminate.
  cbn. now rewrite IH.
Qed.

(** A customer gives at most two entries and a custom row gives one when
    its amount is a number and none otherwise: the ledger has as many
    entries as the derived ones, at most twice the number of customers,
    plus the custom rows with a number. Without customers and rows the
    aggregate is the empty one. *)
Theorem quantas_entradas n cs ps ds ts a :
  agregar rt n cs ps ds ts = Retorna a ->
  let livro := transacoes (dadosDe rt a) in
  let derivadas := acumuladas (derivadas rt n cs ps ds) in
  List.length livro = (List.length derivadas + List.length (filter comValor ts))%nat
  /\ (List.length derivadas <= 2 * List.length cs)%nat
  /\ (List.length livro <= 2 * List.length cs + List.length ts)%nat
  /\ agregar rt n [] ps ds [] = Retorna (acumuladoInicial n).
Proof.
  intros Ha. cbv zeta. cbn [dadosDe transacoes].
  rewrite (Permutation_length (sort_Permutation rt _)).
  unfold agregar in Ha.
  rewrite (acumuladas_customizadas rt _ _ _ Ha), length_app.
  rewrite length_entradasCustomizadas
    by exact (customizadas_retorna rt _ _ _ Ha).
  pose proof (length_clientes (planosMapDe ps) (produtosMapDe ds) cs
                (acumuladoInicial n)) as H.
  cbn [acumuladoInicial acumuladas List.length] in H.
  pose proof (filter_length_le comValor ts).
  unfold derivadas. repeat split; try lia.
Qed.
End Totais.

(** ** The maps of plans and products *)
Section Mapas.
Context {V : Type}.

Lemma mesmaChave_refl k : mesmaChave k k = true.
Proof. destruct k as [x|]; [apply String.eqb_refl|reflexivity]. Qed.

Lemma mesmaChave_eq a b : mesmaChave a b = true -> a = b.
Proof.
  destruct a as [x|], b as [y|]; cbn; try discriminate; [|reflexivity].
  intros H. apply String.eqb_eq in H. now subst.
Qed.

Lemma mesmaChave_dif a b : a <> b -> mesmaChave a b = false.
Proof.
  intros H. destruct (mesmaChave a b) eqn:E; [|reflexivity].
  now apply mesmaChave_eq in E.
Qed.

Lemma Map_get_mais_um (m : Map V) k k' v :
  Map_get (m ++ [(k', v)])%list k
  = if mesmaChave k' k then Some v else Map_get m k.
Proof. unfold Map_get. now rewrite fold_left_app. Qed.

Lemma Map_get_desde (m : Map V) k r v :
  fold_left (fun r kv => if mesmaChave (fst kv) k then Some (snd kv) else r)
            m r = Some v ->
  r = Some v \/ exists k', In (k', v) m /\ mesmaChave k' k = true.
Proof.
  revert r. induction m as [|[k' x] m IH]; intros r H; [now left|].
  cbn [fold_left fst snd] in H. apply IH in H as [H|(k2 & Hin & Hk)].
  - destruct (mesmaChave k' k) eqn:E; [|now left].
    injection H as ->. right. exists k'. split; [now left|exact E].
  - right. exists k2. split; [now right|exact Hk].
Qed.

Lemma Map_get_nenhum (m : Map V) k r :
  fold_left (fun r kv => if mesmaChave (fst kv) k then Some (snd kv) else r)
            m r = None <->
  r = None /\ Forall (fun kv => mesmaChave (fst kv) k = false) m.
Proof.
  revert r. induction m as [|[k' x] m IH]; intros r; cbn [fold_left fst snd].
  - split; [intros H; split; [exact H|constructor]|now intros [H _]].
  - rewrite IH. destruct (mesmaChave k' k) eqn:E.
    + split; [intros [H _]; discriminate|].
      intros [_ H]. inversion H; subst. cbn in *. congruence.
    + split; intros [H1 H2]; split; try exact H1.
      * constructor; [exact E|exact H2].
      * now inversion H2.
Qed.

(** The map built from a list of pairs holds, for a key, the value of the
    last pair with that key: a pair added at the end replaces what the key
    had and leaves the other keys alone; a key has no value exactly when no
    pair has it; and a value found is the value of a pair of the list with
    that key. *)
Theorem Map_ultimo_par (m : Map V) k :
  (forall v, Map_get (m ++ [(k, v)])%list k = Some v)
  /\ (forall k' v, k' <> k -> Map_get (m ++ [(k', v)])%list k = Map_get m k)
  /\ (Map_get m k = None <-> Forall (fun kv => fst kv <> k) m)
  /\ (forall v, Map_get m k = Some v -> In (k, v) m).
Proof.
  split; [|split; [|split]].
  - intros v. now rewrite Map_get_mais_um, mesmaChave_refl.
  - intros k' v H. now rewrite Map_get_mais_um, (mesmaChave_dif _ _ H).
  - unfold Map_get. rewrite Map_get_nenhum. split.
    + intros [_ H]. eapply Forall_impl; [|exact H]. cbn.
      intros kv Hk E. rewrite E, mesmaChave_refl in Hk. discriminate.
    + intros H. split; [reflexivity|]. eapply Forall_impl; [|exact H].
      intros kv. apply mesmaChave_dif.
  - intros v H. apply Map_get_desde in H as [H|(k' & Hin & Hk)];
      [discriminate|].
    apply mesmaChave_eq in Hk. now subst.
Qed.
End Mapas.

(** ** Where the entries come from *)
Section Origem.
Variable rt : Runtime.

Lemma plano_achado ps k plano :
  Map_get (planosMapDe ps) k = Some plano ->
  In plano ps /\ plano_id plano = k.
Proof.
  intros H. apply Map_get_desde in H as [H|(k' & Hin & Hk)]; [discriminate|].
  apply in_map_iff in Hin as (p & E & Hp). injection E as <- ->.
  split; [exact Hp|now apply mesmaChave_eq].
Qed.

Lemma produto_achado ds k produto :
  Map_get (produtosMapDe ds) k = Some produto ->
  In produto ds /\ produto_id produto = k.
Proof.
  intros H. apply Map_get_desde in H as [H|(k' & Hin & Hk)]; [discriminate|].
  apply in_map_iff in Hin as (p & E & Hp). injection E as <- ->.
  split; [exact Hp|now apply mesmaChave_eq].
Qed.

Lemma origem_lancaPlano (P : TransacaoFinanceira -> Prop) cs ps c a :
  (forall e, doPlano cs ps e -> P e) -> In c cs ->
  Forall P (acumuladas a) ->
  Forall P (acumuladas (lancaPlano rt (planosMapDe ps) c a)).
Proof.
  intros HP Hc H. unfold lancaPlano.
  destruct (verdadeiro (cliente_plano c)) eqn:Hv; [|exact H].
  destruct (Map_get (planosMapDe ps) (cliente_plano c)) as [plano|] eqn:Hg;
    [|exact H].
  destruct (isNaN (valorDoPreco (plano_valor plano))); [exact H|].
  destruct (dataDoCliente rt c (leituras a)) as [d n]. cbn [acumuladas].
  apply Forall_app. split; [exact H|]. constructor; [|constructor].
  apply HP. apply plano_achado in Hg as [Hin Hid].
  exists c, plano. cbn. repeat split; assumption.
Qed.

Lemma origem_lancaProduto (P : TransacaoFinanceira -> Prop) cs ds c a :
  (forall e, doProduto cs ds e -> P e) -> In c cs ->
  Forall P (acumuladas a) ->
  Forall P (acumuladas (lancaProduto rt (produtosMapDe ds) c a)).
Proof.
  intros HP Hc H. unfold lancaProduto.
  destruct (verdadeiro (cliente_produto c)) eqn:Hv; [|exact H].
  destruct (Map_get (produtosMapDe ds) (cliente_produto c))
    as [produto|] eqn:Hg; [|exact H].
  destruct (isNaN (valorDoPreco (produto_valor produto))); [exact H|].
  destruct (dataDoCliente rt c (leituras a)) as [d n]. cbn [acumuladas].
  apply Forall_app. split; [exact H|]. constructor; [|constructor].
  apply HP. apply produto_achado in Hg as [Hin Hid].
  exists c, produto. cbn. repeat split; assumption.
Qed.

Lemma origem_clientes (P : TransacaoFinanceira -> Prop) cs ps ds sub a :
  (forall e, doPlano cs ps e -> P e) ->
  (forall e, doProduto cs ds e -> P e) ->
  (forall c, In c sub -> In c cs) ->
  Forall P (acumuladas a) ->
  Forall P (acumuladas
              (fold_left (lancaCliente rt (planosMapDe ps) (produtosMapDe ds))
                         sub a)).
Proof.
  intros H1 H2. revert a. induction sub as [|c r IH]; intros a Hs H;
    [exact H|].
  cbn [fold_left]. apply IH; [intros x Hx; apply Hs; now right|].
  unfold lancaCliente.
  apply (origem_lancaProduto P cs ds); [exact H2|apply Hs; now left|].
  apply (origem_lancaPlano P cs ps); [exact H1|apply Hs; now left|exact H].
Qed.

Lemma origem_customizadas ts :
  Forall (daLinha ts) (entradasCustomizadas rt ts).
Proof.
  apply Forall_forall. intros e He. unfold entradasCustomizadas in He.
  apply in_flat_map in He as (t & Ht & He).
  destruct (isNaN (parseFloatBruto (linha_valor t))); [contradiction|].
  unfold entradaCustomizada in He.
  destruct (linha_descricao t) as [|y|d] eqn:Hd; try contradiction.
  destruct He as [<-|[]]. exists t, d. cbn. repeat split; assumption.
Qed.

(** Every entry of the ledger comes from the rows fetched: it is the plan
    of a customer (an inflow named "entrada-" and the customer's id, worth
    the parsed price of a plan whose id the customer refers to), or the
    product of a customer (likewise an outflow named "saida-"), both
    marked as not custom and without a description, or a custom row, marked
    as custom, under the row's own id and with its description kept. *)
Theorem origem_das_entradas n cs ps ds ts a :
  agregar rt n cs ps ds ts = Retorna a ->
  Forall (fun e => doPlano cs ps e \/ doProduto cs ds e \/ daLinha ts e)
         (transacoes (dadosDe rt a)).
Proof.
  intros Ha. cbn [dadosDe transacoes]. rewrite sort_Permutation.
  unfold agregar in Ha. rewrite (acumuladas_customizadas rt _ _ _ Ha).
  apply Forall_app. split.
  - unfold derivadas. apply (origem_clientes _ cs ps ds); auto.
  - eapply Forall_impl; [|apply origem_customizadas]. cbn. auto.
Qed.
End Origem.

(** ** References that lead nowhere, and references that are entered *)
Section Referencias.
Variable rt : Runtime.

Lemma lancaPlano_sem_plano pm c a :
  verdadeiro (cliente_plano c) = false
  \/ Map_get pm (cliente_plano c) = None ->
  lancaPlano rt pm c a = a.
Proof.
  intros [H|H]; unfold lancaPlano; rewrite H; [reflexivity|].
  now destruct (verdadeiro (cliente_plano c)).
Qed.

Lemma lancaProduto_sem_produto dm c a :
  verdadeiro (cliente_produto c) = false
  \/ Map_get dm (cliente_produto c) = None ->
  lancaProduto rt dm c a = a.
Proof.
  intros [H|H]; unfold lancaProduto; rewrite H; [reflexivity|].
  now destruct (verdadeiro (cliente_produto c)).
Qed.

Lemma sem_plano_com_esse_id ps k :
  Forall (fun p => plano_id p <> k) ps -> Map_get (planosMapDe ps) k = None.
Proof.
  intros H. apply Map_get_nenhum. split; [reflexivity|].
  unfold planosMapDe. apply Forall_map. eapply Forall_impl; [|exact H].
  intros p. apply mesmaChave_dif.
Qed.

Lemma sem_produto_com_esse_id ds k :
  Forall (fun p => produto_id p <> k) ds ->
  Map_get (produtosMapDe ds) k = None.
Proof.
  intros H. apply Map_get_nenhum. split; [reflexivity|].
  unfold produtosMapDe. apply Forall_map. eapply Forall_impl; [|exact H].
  intros p. apply mesmaChave_dif.
Qed.

(** A customer whose reference to a plan is absent or empty, or is the id
    of no plan fetched, gives no inflow: the aggregate is the one of the
    same rows with that reference removed. So it is for the reference to a
    product and the outflow. *)
Theorem referencia_sem_registro n cs1 c cs2 ps ds ts :
  (verdadeiro (cliente_plano c) = false
   \/ Forall (fun p => plano_id p <> cliente_plano c) ps ->
   agregar rt n (cs1 ++ c :: cs2) ps ds ts
   = agregar rt n (cs1 ++ semPlano c :: cs2) ps ds ts)
  /\ (verdadeiro (cliente_produto c) = false
      \/ Forall (fun p => produto_id p <> cliente_produto c) ds ->
      agregar rt n (cs1 ++ c :: cs2) ps ds ts
      = agregar rt n (cs1 ++ semProduto c :: cs2) ps ds ts).
Proof.
  split; intros H; unfold agregar, derivadas; rewrite !fold_left_app;
    cbn [fold_left]; unfold lancaCliente.
  - rewrite (lancaPlano_sem_plano _ c).
    + now rewrite (lancaPlano_sem_plano _ (semPlano c)) by now left.
    + destruct H as [H|H]; [now left|right].
      now apply sem_plano_com_esse_id.
  - rewrite (lancaProduto_sem_produto _ c).
    + now rewrite (lancaProduto_sem_produto _ (semProduto c)) by now left.
    + destruct H as [H|H]; [now left|right].
      now apply sem_produto_com_esse_id.
Qed.

Lemma fica_lancaPlano pm c a e :
  In e (acumuladas a) -> In e (acumuladas (lancaPlano rt pm c a)).
Proof.
  intros H. unfold lancaPlano.
  destruct (verdadeiro (cliente_plano c)); [|exact H].
  destruct (Map_get pm (cliente_plano c)) as [plano|]; [|exact H].
  destruct (isNaN (valorDoPreco (plano_valor plano))); [exact H|].
  destruct (dataDoCliente rt c (leituras a)) as [d n]. cbn [acumuladas].
  apply in_or_app. now left.
Qed.

Lemma fica_lancaProduto dm c a e :
  In e (acumuladas a) -> In e (acumuladas (lancaProduto rt dm c a)).
Proof.
  intros H. unfold lancaProduto.
  destruct (verdadeiro (cliente_produto c)); [|exact H].
  destruct (Map_get dm (cliente_produto c)) as [produto|]; [|exact H].
  destruct (isNaN (valorDoPreco (produto_valor produto))); [exact H|].
  destruct (dataDoCliente rt c (leituras a)) as [d n]. cbn [acumuladas].
  apply in_or_app. now left.
Qed.

Lemma fica_clientes pm dm cs a e :
  In e (acumuladas a) ->
  In e (acumuladas (fold_left (lancaCliente rt pm dm) cs a)).
Proof.
  revert a. induction cs as [|c r IH]; intros a H; [exact H|].
  cbn [fold_left]. apply IH. unfold lancaCliente.
  now apply fica_lancaProduto, fica_lancaPlano.
Qed.

(** What is in the list after a customer stays in the ledger. *)
Lemma fica_no_livro n cs1 c cs2 ps ds ts e a :
  agregar rt n (cs1 ++ c :: cs2) ps ds ts = Retorna a ->
  In e (acumuladas
          (lancaCliente rt (planosMapDe ps) (produtosMapDe ds)
             (derivadas rt n cs1 ps ds) c)) ->
  In e (transacoes (dadosDe rt a)).
Proof.
  intros Ha H. cbn [dadosDe transacoes].
  apply (Permutation_in _ (Permutation_sym (sort_Permutation rt _))).
  unfold agregar in Ha. rewrite (acumuladas_customizadas rt _ _ _ Ha).
  apply in_or_app. left.
  unfold derivadas in *. rewrite fold_left_app. cbn [fold_left].
  now apply fica_clientes.
Qed.

(** A customer that refers to a plan fetched whose price parses has its
    inflow in the ledger, worth that price, under the name "entrada-" and
    the customer's id, with the plan's name as detail; one that refers to a
    product fetched whose price parses has its outflow there, under
    "saida-" and its id. *)
Theorem referencias_lancadas n cs ps ds ts c a :
  In c cs ->
  agregar rt n cs ps ds ts = Retorna a ->
  (forall plano,
      verdadeiro (cliente_plano c) = true ->
      Map_get (planosMapDe ps) (cliente_plano c) = Some plano ->
      isNaN (valorDoPreco (plano_valor plano)) = false ->
      exists e,
        In e (transacoes (dadosDe rt a))
        /\ id e = "entrada-" ++ emTexto (cliente_id c)
        /\ valor e = valorDoPreco (plano_valor plano)
        /\ tipo e = Texto "entrada"
        /\ cliente e = cliente_nome c
        /\ detalheValor e = plano_nome plano)
  /\ (forall produto,
        verdadeiro (cliente_produto c) = true ->
        Map_get (produtosMapDe ds) (cliente_produto c) = Some produto ->
        isNaN (valorDoPreco (produto_valor produto)) = false ->
        exists e,
          In e (transacoes (dadosDe rt a))
          /\ id e = "saida-" ++ emTexto (cliente_id c)
          /\ valor e = valorDoPreco (produto_valor produto)
          /\ tipo e = Texto "saida"
          /\ cliente e = cliente_nome c
          /\ detalheValor e = produto_nome produto).
Proof.
  intros Hc Ha. apply in_split in Hc as (cs1 & cs2 & ->). split.
  - intros plano Hv Hg Hn.
    set (b := derivadas rt n cs1 ps ds).
    destruct (dataDoCliente rt c (leituras b)) as [d m] eqn:Ed.
    eexists. split.
    + apply (fica_no_livro _ _ _ _ _ _ _ _ _ Ha). unfold lancaCliente.
      apply fica_lancaProduto.
      fold b. unfold lancaPlano. rewrite Hv, Hg, Hn, Ed. cbn [acumuladas].
      apply in_or_app. right. now left.
    + cbn. repeat split.
  - intros produto Hv Hg Hn.
    set (b := lancaPlano rt (planosMapDe ps) c (derivadas rt n cs1 ps ds)).
    destruct (dataDoCliente rt c (leituras b)) as [d m] eqn:Ed.
    eexists. split.
    + apply (fica_no_livro _ _ _ _ _ _ _ _ _ Ha). unfold lancaCliente.
      fold b.
      unfold lancaProduto. rewrite Hv, Hg, Hn, Ed. cbn [acumuladas].
      apply in_or_app. right. now left.
    + cbn. repeat split.
Qed.
End Referencias.

(** ** The clock *)
Section Relogio.
Variable rt : Runtime.

Lemma dataDoCliente_leituras c k :
  snd (dataDoCliente rt c k) = if datado c then k else S k.
Proof. unfold dataDoCliente, datado. now destruct (verdadeiro _). Qed.

Lemma lidoAte_lancaPlano n pm c a :
  lidoAte n a -> lidoAte n (lancaPlano rt pm c a).
Proof.
  unfold lidoAte, lancaPlano. intros H.
  destruct (verdadeiro (cliente_plano c)); [|exact H].
  destruct (Map_get pm (cliente_plano c)) as [plano|]; [|exact H].
  destruct (isNaN (valorDoPreco (plano_valor plano))); [exact H|].
  pose proof (dataDoCliente_leituras c (leituras a)) as E.
  destruct (dataDoCliente rt c (leituras a)) as [d m].
  cbn [leituras acumuladas snd] in *. rewrite length_app. cbn.
  destruct (datado c); lia.
Qed.

Lemma lidoAte_lancaProduto n dm c a :
  lidoAte n a -> lidoAte n (lancaProduto rt dm c a).
Proof.
  unfold lidoAte, lancaProduto. intros H.
  destruct (verdadeiro (cliente_produto c)); [|exact H].
  destruct (Map_get dm (cliente_produto c)) as [produto|]; [|exact H].
  destruct (isNaN (valorDoPreco (produto_valor produto))); [exact H|].
  pose proof (dataDoCliente_leituras c (leituras a)) as E.
  destruct (dataDoCliente rt c (leituras a)) as [d m].
  cbn [leituras acumuladas snd] in *. rewrite length_app. cbn.
  destruct (datado c); lia.
Qed.

Lemma lidoAte_clientes n pm dm cs a :
  lidoAte n a -> lidoAte n (fold_left (lancaCliente rt pm dm) cs a).
Proof.
  revert a. induction cs as [|c r IH]; intros a H; [exact H|].
  cbn [fold_left]. apply IH. unfold lancaCliente.
  now apply lidoAte_lancaProduto, lidoAte_lancaPlano.
Qed.

Lemma leituras_datado pm dm c a :
  datado c = true -> leituras (lancaCliente rt pm dm a c) = leituras a.
Proof.
  intros Hd. unfold lancaCliente.
  assert (P : forall b, leituras (lancaPlano rt pm c b) = leituras b).
  { intros b. unfold lancaPlano.
    destruct (verdadeiro (cliente_plano c)); [|reflexivity].
    destruct (Map_get pm (cliente_plano c)) as [plano|]; [|reflexivity].
    destruct (isNaN (valorDoPreco (plano_valor plano))); [reflexivity|].
    pose proof (dataDoCliente_leituras c (leituras b)) as E.
    destruct (dataDoCliente rt c (leituras b)) as [d m].
    cbn [leituras snd] in *. now rewrite Hd in E. }
  assert (Q : forall b, leituras (lancaProduto rt dm c b) = leituras b).
  { intros b. unfold lancaProduto.
    destruct (verdadeiro (cliente_produto c)); [|reflexivity].
    destruct (Map_get dm (cliente_produto c)) as [produto|]; [|reflexivity].
    destruct (isNaN (valorDoPreco (produto_valor produto))); [reflexivity|].
    pose proof (dataDoCliente_leituras c (leituras b)) as E.
    destruct (dataDoCliente rt c (leituras b)) as [d m].
    cbn [leituras snd] in *. now rewrite Hd in E. }
  now rewrite Q, P.
Qed.

(** The aggregation reads the clock only for the entries of customers
    without a creation time: at most once per derived entry, never for a
    custom row, and not at all when every customer has a creation time. *)
Theorem relogio_so_sem_data n cs ps ds ts :
  let derivada := derivadas rt n cs ps ds in
  (forall a, agregar rt n cs ps ds ts = Retorna a ->
             leituras a = leituras derivada)
  /\ (n <= leituras derivada
      <= n + List.length (acumuladas derivada))%nat
  /\ (Forall (fun c => datado c = true) cs -> leituras derivada = n).
Proof.
  cbv zeta.
  split; [intros a Ha; exact (leituras_customizadas rt _ _ _ Ha)|]. split.
  - apply (lidoAte_clientes n). unfold lidoAte. cbn. lia.
  - intros H. unfold derivadas.
    assert (G : forall b,
               leituras (fold_left (lancaCliente rt (planosMapDe ps)
                                      (produtosMapDe ds)) cs b)
               = leituras b).
    { induction H as [|c r Hc Hr IH]; intros b; [reflexivity|].
      cbn [fold_left]. rewrite IH. now apply leituras_datado. }
    apply G.
Qed.
End Relogio.

(** ** Prices and descriptions as strings *)
Section Textos.

Lemma removeTodos_app f a b :
  removeTodos f (a ++ b) = removeTodos f a ++ removeTodos f b.
Proof.
  induction a as [|c r IH]; [reflexivity|]. cbn.
  destruct (f c); cbn; now rewrite IH.
Qed.

Lemma removeTodos_de_novo f s :
  removeTodos f (removeTodos f s) = removeTodos f s.
Proof.
  induction s as [|c r IH]; [reflexivity|]. cbn.
  destruct (f c) eqn:E; [exact IH|]. cbn. now rewrite E, IH.
Qed.

Lemma includes_app c a b :
  includes c (a ++ b) = includes c a || includes c b.
Proof.
  induction a as [|x r IH]; [reflexivity|]. cbn.
  now rewrite IH, orb_assoc.
Qed.

Lemma includes_removeTodos f c s :
  includes c s = false -> includes c (removeTodos f s) = false.
Proof.
  induction s as [|x r IH]; [reflexivity|]. cbn. intros H.
  apply orb_false_iff in H as [Hx Hr].
  destruct (f x); cbn; [now apply IH|]. now rewrite Hx, IH.
Qed.

Lemma replacePrimeiro_sem a b s :
  includes a s = false -> replacePrimeiro a b s = s.
Proof.
  induction s as [|x r IH]; [reflexivity|]. cbn. intros H.
  apply orb_false_iff in H as [Hx Hr]. now rewrite Hx, IH.
Qed.

Lemma replacePrimeiro_app a b s1 s2 :
  includes a s1 = false ->
  replacePrimeiro a b (s1 ++ String a s2) = s1 ++ String b s2.
Proof.
  induction s1 as [|x r IH]; cbn.
  - intros _. now rewrite Ascii.eqb_refl.
  - intros H. apply orb_false_iff in H as [Hx Hr]. now rewrite Hx, IH.
Qed.

(** The currency symbol and white space count for nothing in a price,
    wherever they stand: a price reads the same with or without any "R",
    "$" or white-space character, and the same once stripped of them all. *)
Theorem preco_sem_simbolos a c b :
  classeRS c = true ->
  valorDoPreco (a ++ String c b) = valorDoPreco (a ++ b)
  /\ valorDoPreco (removeTodos classeRS (a ++ String c b))
     = valorDoPreco (a ++ b).
Proof.
  intros H. unfold valorDoPreco. rewrite removeTodos_de_novo.
  rewrite !removeTodos_app. cbn [removeTodos]. rewrite H. now split.
Qed.

(** A decimal comma reads as a decimal point: a price with one comma reads
    as the same text with a point in its place. *)
Theorem virgula_decimal a b :
  includes "," a = false -> includes "," b = false ->
  valorDoPreco (a ++ String "," b) = valorDoPreco (a ++ String "." b).
Proof.
  intros Ha Hb. unfold valorDoPreco. rewrite !removeTodos_app.
  change (removeTodos classeRS (String "," b))
    with (String "," (removeTodos classeRS b)).
  change (removeTodos classeRS (String "." b))
    with (String "." (removeTodos classeRS b)).
  rewrite replacePrimeiro_app by now apply includes_removeTodos.
  rewrite replacePrimeiro_sem; [reflexivity|].
  rewrite includes_app. cbn [includes].
  rewrite !includes_removeTodos by assumption. reflexivity.
Qed.

Lemma split_inteiro sep s :
  includes sep s = false -> split sep s = [s].
Proof.
  induction s as [|x r IH]; [reflexivity|]. cbn. intros H.
  apply orb_false_iff in H as [Hx Hr]. now rewrite Hx, IH.
Qed.

Lemma split_primeira sep a b :
  includes sep a = false ->
  split sep (a ++ String sep b) = a :: split sep b.
Proof.
  induction a as [|x r IH]; cbn.
  - intros _. now rewrite Ascii.eqb_refl.
  - intros H. apply orb_false_iff in H as [Hx Hr]. now rewrite Hx, IH.
Qed.

Variable rt : Runtime.

(** A description of one line gives the line as the counterparty and no
    detail ("Sem detalhes"); a description of a first line, a line feed and
    more gives the first line as the counterparty and, as the detail, what
    follows with its line feeds turned into spaces, which is what follows
    itself when it is one line. An empty first line gives "Transação
    customizada". *)
Theorem descricao_em_partes (t : Linha) (v : number) a b :
  includes "010" a = false ->
  (linha_descricao t = Texto a ->
   exists e,
     entradaCustomizada rt t v = Retorna e
     /\ cliente e = ouTexto a "Transação customizada"
     /\ detalheValor e = "Sem detalhes")
  /\ (linha_descricao t = Texto (a ++ String "010" b) ->
      exists e,
        entradaCustomizada rt t v = Retorna e
        /\ cliente e = ouTexto a "Transação customizada"
        /\ detalheValor e
           = ouTexto (join " " (split "010" b)) "Sem detalhes"
        /\ (includes "010" b = false ->
            detalheValor e = ouTexto b "Sem detalhes")).
Proof.
  intros Ha. unfold entradaCustomizada.
  split; intros ->; eexists; (split; [reflexivity|]);
    cbn [entradaDoTexto cliente detalheValor].
  - now rewrite split_inteiro.
  - rewrite split_primeira by exact Ha. cbn [primeiro slice1 hd tl].
    split; [reflexivity|]. split; [reflexivity|].
    intros Hb. now rewrite split_inteiro.
Qed.
End Textos.

(** ** A ledger whose dates cannot be read *)
Section SemDatas.
Variable rt : Runtime.
Context {S : Type} {loja_ops : Loja S}.
Variable userId : option string.

(** When the [Date] constructor reads none of the display strings as a
    date, every comparison of the sort is NaN and the ledger of a load that
    passes every custom row lists the entries in the order they were built
    in: the derived entries, customer by customer, then the custom ones in
    the order of the rows. *)
Theorem livro_sem_datas_legiveis (w : @Mundo S) c p d :
  verdadeiro userId = true ->
  linhasDe (resClientes (loja w)) = Some c ->
  linhasDe (resPlanos (loja w)) = Some p ->
  linhasDe (resProdutos (loja w)) = Some d ->
  linhasPassam (loja w) = true ->
  let construidas :=
    (acumuladas (derivadas rt (lidas w) c p d)
     ++ entradasCustomizadas rt
          (customizadasDe (resTransacoes (loja w))))%list in
  Forall (fun e => legivel rt e = false) construidas ->
  transacoes (dados (snd (carregarDadosFinanceiros rt userId w)))
  = construidas.
Proof.
  intros Hu Hc Hp Hd Hl construidas H. subst construidas.
  rewrite (livro_da_carga rt userId w c p d Hu Hc Hp Hd Hl).
  now apply sort_ilegiveis.
Qed.
End SemDatas.

(** ** How loads and writes end *)
Section Desfechos.
Variable rt : Runtime.
Context {S : Type} {loja_ops : Loja S}.
Variable userId : option string.

(** A load never throws, whatever the store answers. Without a user it
    leaves the world as it is, the loading flag included. With a user it
    ends with the loading flag cleared, and with no error message exactly
    when the three source fetches gave rows and every custom row fetched
    either has no number as amount or has a string as description: an
    error of an earlier load does not stay. Otherwise it ends with the
    fixed error message. *)
Theorem carga_sempre_retorna (w : @Mundo S) :
  let fim := carregarDadosFinanceiros rt userId w in
  fst fim = Retorna tt
  /\ (verdadeiro userId = false -> snd fim = w)
  /\ (verdadeiro userId = true ->
      loading (dados (snd fim)) = false
      /\ (error (dados (snd fim)) = None
          <-> fontesOk (loja w) && linhasPassam (loja w) = true)
      /\ (error (dados (snd fim)) = None
          \/ error (dados (snd fim))
             = Some "Erro ao carregar dados financeiros")).
Proof.
  cbv zeta. split; [apply carregar_retorna|]. split.
  - intros Hu. now rewrite carregar_sem_usuario.
  - intros Hu. rewrite dados_da_carga by exact Hu.
    unfold fontesOk, linhasPassam.
    destruct (linhasDe (resClientes (loja w))) as [c|];
      [destruct (linhasDe (resPlanos (loja w))) as [p|];
       [destruct (linhasDe (resProdutos (loja w))) as [d|]|]|];
      try (cbn; split; [reflexivity|]; split; [split; discriminate|];
           now right).
    cbn [andb]. unfold agregar.
    destruct (forallb passa (customizadasDe (resTransacoes (loja w))))
      eqn:Hl.
    + destruct (customizadas_passam rt _ (derivadas rt (lidas w) c p d) Hl)
        as [a Ha].
      rewrite Ha. cbn. split; [reflexivity|]. split; [now split|now left].
    + destruct (customizadas_nao_passam rt _
                  (derivadas rt (lidas w) c p d) Hl) as [m Hm].
      rewrite Hm. cbn. split; [reflexivity|].
      split; [split; discriminate|now right].
Qed.

(** A load with a user issues the selects of the customers, the plans and
    the products, in that order, and then the select of the custom
    transactions unless one of the three promises was rejected: it is
    issued also when a source answered with an error, although the load
    then ends with the error message. No other call is made. *)
Theorem selects_de_uma_carga (w : @Mundo S) :
  verdadeiro userId = true ->
  novasChamadas w (snd (carregarDadosFinanceiros rt userId w))
  = if fonteRejeitada (loja w) then selectsDaFonte else selectsDaCarga.
Proof.
  intros Hu. apply novasChamadas_app. rewrite chamadas_da_carga.
  now rewrite Hu.
Qed.

(** A write returns exactly when its own call of the store succeeded: the
    edit when the update did, the deletion when the delete did, the
    creation when a row was inserted. The load that follows plays no part:
    when it fails the write still returns, and the failure shows as the
    error message of the ledger. *)
Theorem escrita_retorna_se_gravou (w : @Mundo S) onde editada nova :
  (fst (editarTransacao rt userId onde editada w) = Retorna tt
   <-> semErro (fst (update_transacao onde editada (loja w))) = true)
  /\ (fst (excluirTransacao rt userId onde w) = Retorna tt
      <-> semErro (fst (delete_transacao onde (loja w))) = true)
  /\ (fst (salvarTransacao rt userId nova w) = Retorna tt
      <-> salvou userId nova w = true).
Proof.
  split; [|split].
  - rewrite editar_passos. cbv zeta. unfold semErro.
    destruct (erroDe (fst (update_transacao onde editada (loja w)))).
    + split; discriminate.
    + rewrite carregar_retorna. now split.
  - rewrite excluir_passos. cbv zeta. unfold semErro.
    destruct (erroDe (fst (delete_transacao onde (loja w)))).
    + split; discriminate.
    + rewrite carregar_retorna. now split.
  - unfold salvou. destruct (verdadeiro userId) eqn:Hu.
    2:{ rewrite salvar_sem_usuario by exact Hu. split; discriminate. }
    rewrite salvar_passos by exact Hu. cbv zeta. cbn [andb]. unfold semErro.
    destruct (fst (insert_transacao (linhaDe userId nova) (loja w)))
      as [x|d1 [e1|]].
    + split; discriminate.
    + destruct (tabelaAusente e1); [|split; discriminate]. cbn [andb].
      destruct (erroDe (fst (invoke_create_transacoes _)));
        [split; discriminate|].
      cbn [andb].
      destruct (erroDe (fst (insert_transacao _ _)));
        [split; discriminate|].
      rewrite carregar_retorna. now split.
    + rewrite carregar_retorna. now split.
Qed.

(** With a user, when the first insert fails for a reason other than a
    missing relation (its promise is rejected, or its error has another
    code than PGRST205), the creation throws that very error; the insert is
    the only call made and the ledger is not touched. *)
Theorem salvar_outro_erro (w : @Mundo S) nova x :
  let l := linhaDe userId nova in
  verdadeiro userId = true ->
  erroDe (fst (insert_transacao l (loja w))) = Some x ->
  (forall d e, fst (insert_transacao l (loja w)) = Resolvida d (Some e) ->
               tabelaAusente e = false) ->
  salvarTransacao rt userId nova w
  = (Lanca x, aposChamada w (ChInsert l) (snd (insert_transacao l (loja w)))).
Proof.
  intros l Hu Hx Hk. rewrite salvar_passos by exact Hu. cbv zeta. fold l.
  destruct (fst (insert_transacao l (loja w))) as [y|d [e|]]; cbn in Hx.
  - now injection Hx as ->.
  - rewrite (Hk d e eq_refl). now injection Hx as ->.
  - discriminate.
Qed.

(** What a creation throws is one of three things: the error "Usuário não
    autenticado" when there is no user, the error of the first insert, or
    the error with the fixed message about the missing table. *)
Theorem salvar_o_que_lanca (w : @Mundo S) nova x :
  fst (salvarTransacao rt userId nova w) = Lanca x ->
  (verdadeiro userId = false /\ x = NovoErro "Usuário não autenticado")
  \/ erroDe (fst (insert_transacao (linhaDe userId nova) (loja w))) = Some x
  \/ x = NovoErro mensagemSemTabela.
Proof.
  destruct (verdadeiro userId) eqn:Hu.
  2:{ rewrite salvar_sem_usuario by exact Hu. cbn. intros H.
      injection H as <-. now left. }
  rewrite salvar_passos by exact Hu. cbv zeta.
  destruct (fst (insert_transacao (linhaDe userId nova) (loja w)))
    as [y|d [e|]]; cbn [erroDe].
  - cbn. intros H. injection H as <-. right. now left.
  - destruct (tabelaAusente e).
    + destruct (erroDe (fst (invoke_create_transacoes _))).
      { cbn. intros H. injection H as <-. now right; right. }
      destruct (erroDe (fst (insert_transacao _ _))).
      { cbn. intros H. injection H as <-. now right; right. }
      rewrite carregar_retorna. discriminate.
    + cbn. intros H. injection H as <-. right. now left.
  - rewrite carregar_retorna. discriminate.
Qed.

(** The edit and the deletion do not ask for a user. Without one the call
    of the store is made all the same; when it succeeds the operation
    returns but the ledger is not loaded again: no select is made and the
    state of the hook is the one before the call. *)
Theorem editar_sem_usuario (w : @Mundo S) onde editada :
  verdadeiro userId = false ->
  let u := update_transacao onde editada (loja w) in
  let x := delete_transacao onde (loja w) in
  editarTransacao rt userId onde editada w
  = (match erroDe (fst u) with Some e => Lanca e | None => Retorna tt end,
     aposChamada w (ChUpdate onde editada) (snd u))
  /\ excluirTransacao rt userId onde w
     = (match erroDe (fst x) with Some e => Lanca e | None => Retorna tt end,
        aposChamada w (ChDelete onde) (snd x)).
Proof.
  intros Hu u x. subst u x. rewrite editar_passos, excluir_passos. cbv zeta.
  split.
  - destruct (erroDe (fst (update_transacao onde editada (loja w))));
      [reflexivity|]. now rewrite carregar_sem_usuario.
  - destruct (erroDe (fst (delete_transacao onde (loja w))));
      [reflexivity|]. now rewrite carregar_sem_usuario.
Qed.
End Desfechos.

(** ** The badge of a session *)
Section Selo.
Import WhatsAppSession.

Ltac por_status s :=
  unfold getStatusColor, getStatusText, conhecido;
  destruct (String.eqb_spec s "connected") as [->|];
  [|destruct (String.eqb_spec s "connecting") as [->|];
    [|destruct (String.eqb_spec s "disconnected") as [->|];
      [|destruct (String.eqb_spec s "failed") as [->|]]]].

(** The colour of the badge is one of four; it is the gray one exactly for
    the statuses other than "connected", "connecting" and "failed", the
    unknown ones included, and these three have three different
    colours. *)
Theorem cor_do_selo (status : string) :
  In (getStatusColor status) [verde; amarelo; cinza; vermelho]
  /\ (getStatusColor status = cinza
      <-> status <> "connected" /\ status <> "connecting"
          /\ status <> "failed")
  /\ (getStatusColor status = verde <-> status = "connected")
  /\ (getStatusColor status = amarelo <-> status = "connecting")
  /\ (getStatusColor status = vermelho <-> status = "failed").
Proof.
  por_status status; cbn [orb];
    (split; [cbn; tauto|]);
    repeat split; intros; try discriminate; try reflexivity;
    try tauto; try congruence;
    try (intuition congruence).
Qed.

(** The text of the badge leaves a status it does not know as it is, gives
    the four known statuses four different texts, none of which is a known
    status, and applied to its own result changes nothing. *)
Theorem texto_do_selo (status outro : string) :
  (conhecido status = false -> getStatusText status = status)
  /\ (conhecido status = true -> conhecido (getStatusText status) = false)
  /\ (conhecido status = true -> conhecido outro = true ->
      getStatusText status = getStatusText outro -> status = outro)
  /\ getStatusText (getStatusText status) = getStatusText status.
Proof.
  split; [|split; [|split]].
  - por_status status; cbn; congruence.
  - por_status status; cbn; congruence.
  - por_status status; por_status outro; cbn; congruence.
  - por_status status; try reflexivity.
    unfold getStatusText.
    repeat match goal with
           | H : ?s <> ?t |- context [String.eqb ?s ?t] =>
               rewrite (proj2 (String.eqb_neq s t) H)
           end.
    reflexivity.
Qed.
End Selo.

(** ** Prices that are no number *)
Section SemNumero.

Lemma parseFloat_sem_numero c r :
  espaco c = false -> digito c = false ->
  Ascii.eqb c "+" = false -> Ascii.eqb c "-" = false ->
  Ascii.eqb c "." = false -> Ascii.eqb c "I" = false ->
  parseFloat (String c r) = NaN.
Proof.
  intros He Hd Hp Hm Hpt Hi.
  unfold parseFloat. cbn [trimStart]. rewrite He.
  assert (Hs : sinal (String c r) = (false, String c r)).
  { destruct c as [[] [] [] [] [] [] [] []]; try reflexivity; discriminate. }
  rewrite Hs.
  assert (Hf : prefix "Infinity" (String c r) = false).
  { destruct c as [[] [] [] [] [] [] [] []]; try reflexivity; discriminate. }
  rewrite Hf. cbn [digitos]. rewrite Hd.
  destruct c as [[] [] [] [] [] [] [] []]; try reflexivity; discriminate.
Qed.

Lemma classeRS_espaco c : classeRS c = false -> espaco c = false.
Proof.
  unfold classeRS. intros H. now apply orb_false_iff in H as [_ H].
Qed.

(** What is left of a price never begins with white space. *)
Lemma preco_limpo_sem_espaco preco c r :
  replacePrimeiro "," "." (removeTodos classeRS preco) = String c r ->
  espaco c = false.
Proof.
  induction preco as [|x p IH]; [discriminate|]. cbn [removeTodos].
  destruct (classeRS x) eqn:E; [exact IH|]. cbn [replacePrimeiro].
  destruct (Ascii.eqb x ","); intros H; injection H as <- _;
    [reflexivity|now apply classeRS_espaco].
Qed.

(** A price is not a number when what is left of it, once "R", "$" and
    white space are removed and the first comma is made a point, is empty
    or begins with anything but a digit, a sign, a point or the letter I
    (of Infinity): a plan or product with such a price is never entered. *)
Theorem preco_sem_numero preco :
  let texto := replacePrimeiro "," "." (removeTodos classeRS preco) in
  texto = ""
  \/ (exists c r,
        texto = String c r /\ digito c = false
        /\ c <> "+"%char /\ c <> "-"%char /\ c <> "."%char
        /\ c <> "I"%char) ->
  isNaN (valorDoPreco preco) = true.
Proof.
  intros texto [H|(c & r & H & Hd & Hp & Hm & Hpt & Hi)];
    unfold valorDoPreco; fold texto; rewrite H; [reflexivity|].
  rewrite parseFloat_sem_numero; try reflexivity; try assumption.
  - apply (preco_limpo_sem_espaco preco c r). exact H.
  - now apply Ascii.eqb_neq.
  - now apply Ascii.eqb_neq.
  - now apply Ascii.eqb_neq.
  - now apply Ascii.eqb_neq.
Qed.
End SemNumero.

(** ** The properties above on rows and stores *)

Import Exemplos.

Lemma referencia_sem_registro_witness :
  agregar Navegador.runtime 0
    ([] ++ clienteDe "9" "2024-01-05T10:00:00Z" (Some "p7") None :: [])
    [planoMensal] [] []
  = agregar Navegador.runtime 0
      ([] ++ semPlano (clienteDe "9" "2024-01-05T10:00:00Z" (Some "p7") None)
          :: [])
      [planoMensal] [] [].
Proof.
  apply (proj1 (referencia_sem_registro Navegador.runtime 0 []
                  (clienteDe "9" "2024-01-05T10:00:00Z" (Some "p7") None)
                  [] [planoMensal] [] [])).
  right. repeat constructor. discriminate.
Defined.

Lemma referencias_lancadas_witness :
  exists e,
    In e (transacoes (livroDe lojaEmOrdem))
    /\ id e = "entrada-1"
    /\ valor e = 29.9%float
    /\ tipo e = Texto "entrada"
    /\ cliente e = "Cliente 1"
    /\ detalheValor e = "Mensal".
Proof.
  exact (proj1 (referencias_lancadas Navegador.runtime 0
                  [clienteDe "1" "2024-01-05T10:00:00Z" (Some "p1") (Some "d1")]
                  [planoMensal] [produtoCaixa] [linhaAlice]
                  (clienteDe "1" "2024-01-05T10:00:00Z" (Some "p1") (Some "d1"))
                  _ (or_introl eq_refl) eq_refl)
           planoMensal eq_refl eq_refl eq_refl).
Defined.

(** The aggregate of the store in working order: 29.90 and 50 in, 10 out,
    three entries, each from a row fetched. *)
Lemma totais_sao_somas_witness :
  let livro := livroDe lojaEmOrdem in
  entradas livro = 79.9%float
  /\ saidas livro = 10%float
  /\ lucros livro = 69.9%float
  /\ map valor (transacoes livro) = [50%float; 29.9%float; 10%float].
Proof.
  cbv zeta.
  destruct (totais_sao_somas Navegador.runtime 0
              [clienteDe "1" "2024-01-05T10:00:00Z" (Some "p1") (Some "d1")]
              [planoMensal] [produtoCaixa] [linhaAlice] _ eq_refl)
    as (He & Hs & Hl & _).
  split; [etransitivity; [exact He|vm_compute; reflexivity]|].
  split; [etransitivity; [exact Hs|vm_compute; reflexivity]|].
  split; [etransitivity; [exact Hl|vm_compute; reflexivity]|reflexivity].
Defined.

Lemma quantas_entradas_witness :
  List.length (transacoes (livroDe lojaEmOrdem)) = 3%nat.
Proof.
  destruct (quantas_entradas Navegador.runtime 0
              [clienteDe "1" "2024-01-05T10:00:00Z" (Some "p1") (Some "d1")]
              [planoMensal] [produtoCaixa] [linhaAlice] _ eq_refl)
    as (H & _).
  exact H.
Defined.

Lemma origem_das_entradas_witness :
  let cs := [clienteDe "1" "2024-01-05T10:00:00Z" (Some "p1") (Some "d1")] in
  Forall (fun e => doPlano cs [planoMensal] e
                   \/ doProduto cs [produtoCaixa] e
                   \/ daLinha [linhaAlice] e)
         (transacoes (livroDe lojaEmOrdem)).
Proof.
  exact (origem_das_entradas Navegador.runtime 0
           [clienteDe "1" "2024-01-05T10:00:00Z" (Some "p1") (Some "d1")]
           [planoMensal] [produtoCaixa] [linhaAlice] _ eq_refl).
Defined.

Lemma preco_sem_simbolos_witness :
  valorDoPreco "29 ,90" = valorDoPreco "29,90"
  /\ valorDoPreco (removeTodos classeRS "29 ,90") = valorDoPreco "29,90".
Proof.
  exact (preco_sem_simbolos "29" " " ",90" eq_refl).
Defined.

Lemma virgula_decimal_witness :
  valorDoPreco "R$ 29,90" = valorDoPreco "R$ 29.90".
Proof.
  exact (virgula_decimal "R$ 29" "90" eq_refl eq_refl).
Defined.

Lemma descricao_em_partes_witness :
  exists e,
    entradaCustomizada Navegador.runtime linhaAlice 50%float = Retorna e
    /\ cliente e = "Alice" /\ detalheValor e = "monthly fee via card".
Proof.
  destruct (descricao_em_partes Navegador.runtime linhaAlice 50%float
              "Alice" ("monthly fee" ++ nl ++ "via card") eq_refl)
    as [_ H].
  destruct (H eq_refl) as (e & He & Hc & Hd & _).
  exists e. split; [exact He|]. split; [exact Hc|exact Hd].
Defined.

Lemma livro_sem_datas_legiveis_witness :
  map id (transacoes (livroDe (lojaDosClientes (noDia "2024-01-13"))))
  = ["entrada-1"; "entrada-2"; "entrada-3"].
Proof.
  unfold livroDe.
  rewrite (livro_sem_datas_legiveis Navegador.runtime
             (loja_ops := lojaRoteiro) usuario
             (mundoInicial (lojaDosClientes (noDia "2024-01-13")))
             (clientesCriadosEm (noDia "2024-01-13")) [planoMensal] []
             eq_refl eq_refl eq_refl eq_refl eq_refl).
  - reflexivity.
  - repeat constructor.
Defined.

Lemma selects_de_uma_carga_witness :
  novasChamadas (mundoInicial lojaSemPlanos)
    (snd (carregarDadosFinanceiros Navegador.runtime usuario
            (mundoInicial lojaSemPlanos)))
  = [ChSelect "clientes"; ChSelect "planos"; ChSelect "produtos";
     ChSelect "transacoes"].
Proof.
  exact (selects_de_uma_carga Navegador.runtime (loja_ops := lojaRoteiro)
           usuario (mundoInicial lojaSemPlanos) eq_refl).
Defined.

Lemma salvar_outro_erro_witness :
  salvarTransacao Navegador.runtime usuario novaMensalidade
    (mundoInicial lojaInsercaoRecusada)
  = (Lanca (DaLoja erroPermissao),
     aposChamada (mundoInicial lojaInsercaoRecusada)
       (ChInsert (linhaDe usuario novaMensalidade))
       (snd (insert_transacao (linhaDe usuario novaMensalidade)
               lojaInsercaoRecusada))).
Proof.
  apply (salvar_outro_erro Navegador.runtime (loja_ops := lojaRoteiro)
           usuario (mundoInicial lojaInsercaoRecusada) novaMensalidade
           (DaLoja erroPermissao) eq_refl eq_refl).
  intros d e H. injection H as <- <-. reflexivity.
Defined.

Lemma salvar_o_que_lanca_witness :
  (verdadeiro usuario = false
   /\ NovoErro mensagemSemTabela = NovoErro "Usuário não autenticado")
  \/ erroDe (fst (insert_transacao (linhaDe usuario novaMensalidade)
                    (loja (mundoInicial lojaSemProvisao))))
     = Some (NovoErro mensagemSemTabela)
  \/ NovoErro mensagemSemTabela = NovoErro mensagemSemTabela.
Proof.
  exact (salvar_o_que_lanca Navegador.runtime (loja_ops := lojaRoteiro)
           usuario (mundoInicial lojaSemProvisao) novaMensalidade
           (NovoErro mensagemSemTabela) eq_refl).
Defined.

Lemma editar_sem_usuario_witness :
  editarTransacao Navegador.runtime None "t1" novaMensalidade
    (mundoCarregadoAntes lojaEmOrdem)
  = (Retorna tt,
     aposChamada (mundoCarregadoAntes lojaEmOrdem)
       (ChUpdate "t1" novaMensalidade) lojaEmOrdem)
  /\ excluirTransacao Navegador.runtime None "t1"
       (mundoCarregadoAntes lojaEmOrdem)
     = (Retorna tt,
        aposChamada (mundoCarregadoAntes lojaEmOrdem)
          (ChDelete "t1") lojaEmOrdem).
Proof.
  exact (editar_sem_usuario Navegador.runtime (loja_ops := lojaRoteiro)
           None (mundoCarregadoAntes lojaEmOrdem) "t1" novaMensalidade
           eq_refl).
Defined.

Lemma preco_sem_numero_witness :
  isNaN (valorDoPreco "R$ abc") = true /\ isNaN (valorDoPreco "R$ ") = true.
Proof.
  split.
  - apply (preco_sem_numero "R$ abc"). right.
    exists "a"%char, "bc". repeat split; discriminate.
  - apply (preco_sem_numero "R$ "). now left.
Defined.

End Cobertura.
